(** * get_receipts.py: a shallow embedding and its properties

    The script talks to a mail provider over HTTP, walks the JSON it gets
    back, writes attachments to disk and prints to the console.  The
    embedding keeps that shape:

    - Python [str] is [string], read as a sequence of code points below 256
      (one [ascii] per code point); [bytes] is [list byte];
    - the decoded JSON documents are values of [json], and the operators the
      script applies to them ([in], [x[k]], [.get], truthiness, iteration)
      are the functions [py_in], [py_getitem], [py_get], [truthy],
      [py_iter], with the exceptions CPython raises on the wrong type;
    - the network, the file system and the console are a [world] threaded
      through a state-and-exception monad [M];
    - the libraries the script imports (base64, PyPDF2, python-docx) and the
      remote server are the fields of a record [externals]. *)

From Stdlib Require Import ZArith NArith Ascii String List Bool Lia.
From Stdlib Require Import DecimalString SpecFloat.
From stdpp Require Import base option list strings gmap.

Local Open Scope string_scope.
Local Open Scope list_scope.

Abbreviation bytes := (list Byte.byte).

(** ** Python strings *)

Module Str.

(** [c.lower()] on a code point below 256: the ASCII capitals and the
    Latin-1 capitals U+00C0..U+00DE (U+00D7, the multiplication sign, is
    not a letter) move up by 32; every other code point is unchanged. *)
Definition lower_char (c : ascii) : ascii :=
  let n := N_of_ascii c in
  if ((65 <=? n) && (n <=? 90))%N then ascii_of_N (n + 32)
  else if ((192 <=? n) && (n <=? 222) && negb (n =? 215))%N
       then ascii_of_N (n + 32)
  else c.

(** [s.lower()] *)
Fixpoint lower (s : string) : string :=
  match s with
  | EmptyString => EmptyString
  | String c r => String (lower_char c) (lower r)
  end.

(** [s.endswith(suffix)]: the last [len(suffix)] characters of [s] are
    compared with [suffix]. *)
Definition endswith (s suffix : string) : bool :=
  let n := String.length s in
  let m := String.length suffix in
  (m <=? n)%nat && String.eqb (substring (n - m) m s) suffix.

(** [s.replace(old, new)] for a non-empty [old], scanning left to right
    without overlap.  [skip] counts the characters of a match that are
    still to be dropped. *)
Fixpoint replace_from (skip : nat) (old new s : string) : string :=
  match s with
  | EmptyString => EmptyString
  | String c r =>
      match skip with
      | S k => replace_from k old new r
      | O =>
          if String.prefix old s
          then new +:+ replace_from (String.length old - 1) old new r
          else String c (replace_from 0 old new r)
      end
  end.

Definition replace (s old new : string) : string :=
  replace_from 0 old new s.

(** [c.isspace()] below 256: TAB..CR, FS..US, SPACE, NEL and NBSP. *)
Definition isspace (c : ascii) : bool :=
  let n := N_of_ascii c in
  (((9 <=? n) && (n <=? 13)) || ((28 <=? n) && (n <=? 32))
   || (n =? 133) || (n =? 160))%N.

Fixpoint lstrip (s : string) : string :=
  match s with
  | EmptyString => EmptyString
  | String c r => if isspace c then lstrip r else s
  end.

(** The characters of [s] up to its last non-space one. *)
Fixpoint rstrip (s : string) : string :=
  match s with
  | EmptyString => EmptyString
  | String c r =>
      match rstrip r with
      | EmptyString => if isspace c then EmptyString else String c EmptyString
      | r' => String c r'
      end
  end.

(** [s.strip()] *)
Definition strip (s : string) : string := rstrip (lstrip s).

(** [s.encode("UTF-8")] for code points below 256: one byte below 128,
    two bytes from 128 on. *)
Fixpoint encode_utf8 (s : string) : bytes :=
  match s with
  | EmptyString => []
  | String c r =>
      let n := N_of_ascii c in
      (if (n <? 128)%N then [byte_of_ascii c]
       else [byte_of_ascii (ascii_of_N (192 + n / 64));
             byte_of_ascii (ascii_of_N (128 + n mod 64))])
      ++ encode_utf8 r
  end.

(** [str(n)] for a non-negative integer. *)
Definition of_nat (n : nat) : string :=
  NilZero.string_of_uint (Nat.to_uint n).

(** [str(z)] for an integer. *)
Definition of_Z (z : Z) : string :=
  NilZero.string_of_int (Z.to_int z).

Definition slash : ascii := "/"%char.

(** The newline character, as a string. *)
Definition nl : string := String "010"%char EmptyString.

(** Does the character [c] occur in [s]? *)
Fixpoint mem (c : ascii) (s : string) : bool :=
  match s with
  | EmptyString => false
  | String d r => Ascii.eqb c d || mem c r
  end.

(** [c.isprintable()] below 256: the controls U+0000..U+001F and
    U+007F..U+009F, the no-break space and the soft hyphen are not. *)
Definition isprintable (c : ascii) : bool :=
  let n := N_of_ascii c in
  (((32 <=? n) && (n <=? 126)) || ((161 <=? n) && negb (n =? 173)))%N.

Definition hex_digit (n : N) : ascii :=
  if (n <? 10)%N then ascii_of_N (48 + n) else ascii_of_N (87 + n).

Definition apostrophe : ascii := "039"%char.
Definition quotation : ascii := "034"%char.
Definition backslash : ascii := "092"%char.

(** The characters of [repr(s)] between the quotes [q]. *)
Fixpoint repr_body (q : ascii) (s : string) : string :=
  match s with
  | EmptyString => EmptyString
  | String c r =>
      let n := N_of_ascii c in
      (if Ascii.eqb c q || Ascii.eqb c backslash
       then String backslash (String c EmptyString)
       else if (n =? 9)%N then String backslash "t"
       else if (n =? 10)%N then String backslash "n"
       else if (n =? 13)%N then String backslash "r"
       else if isprintable c then String c EmptyString
       else String backslash
              (String "x" (String (hex_digit (n / 16))
                             (String (hex_digit (n mod 16)) EmptyString))))
      +:+ repr_body q r
  end.

(** [repr(s)]: in double quotes when [s] has an apostrophe and no
    double quote, in apostrophes otherwise. *)
Definition repr (s : string) : string :=
  let q := if mem apostrophe s && negb (mem quotation s)
           then quotation else apostrophe in
  String q (repr_body q s +:+ String q EmptyString).

End Str.

(** ** Exceptions and outcomes *)

(** The exception classes the script can meet.  All of them derive from
    Python's [Exception], so the handler in [main] catches every one. *)
Inductive exn_class :=
| Exception | TypeError | AttributeError | KeyError | EOFError
| FileNotFoundError | FileExistsError | IsADirectoryError | NotADirectoryError
| ValueError | OSError
| LibraryError (name : string).

(** An exception object: its class and [str(e)]. *)
Record exn := mk_exn { exn_cls : exn_class; exn_str : string }.

(** What running a piece of the script gives: a value, an exception, or
    [Unfinished] when the fuel given to the [while True] loop ran out
    before the loop left. *)
Inductive outcome (A : Type) :=
| Ok (a : A)
| Raise (e : exn)
| Unfinished.
Arguments Ok {A} a.
Arguments Raise {A} e.
Arguments Unfinished {A}.

(** ** Decoded JSON *)

#[local] Set Warnings "-register-all".

(** What [response.json()] returns: [None], [bool], [int], [float], [str],
    [list] or [dict].  A [dict] keeps its keys in insertion order and has
    each key once; [fields] lists them in that order. *)
Inductive json :=
| JNull
| JBool (b : bool)
| JInt (z : Z)
| JFloat (f : spec_float)
| JStr (s : string)
| JArr (items : list json)
| JObj (fields : list (string * json)).

(** [d.get(k)] on the fields of a [dict]: the value of the first field
    named [k]. *)
Fixpoint lookup_field (k : string) (fields : list (string * json)) : option json :=
  match fields with
  | [] => None
  | (k', v) :: rest => if String.eqb k k' then Some v else lookup_field k rest
  end.

(** [bool(v)] *)
Definition truthy (v : json) : bool :=
  match v with
  | JNull => false
  | JBool b => b
  | JInt z => negb (z =? 0)%Z
  | JFloat (S754_zero _) => false
  | JFloat _ => true
  | JStr s => negb (String.eqb s "")
  | JArr items => match items with [] => false | _ => true end
  | JObj fields => match fields with [] => false | _ => true end
  end.

(** The operation that failed on a value, for the exception's text. *)
Inductive py_op := OpIn | OpGetItem | OpGetAttr (attr : string) | OpIter.

Definition is_str (k : string) (v : json) : bool :=
  match v with JStr s => String.eqb k s | _ => false end.

(** [type(v).__name__] *)
Definition type_name (v : json) : string :=
  match v with
  | JNull => "NoneType"
  | JBool _ => "bool"
  | JInt _ => "int"
  | JFloat _ => "float"
  | JStr _ => "str"
  | JArr _ => "list"
  | JObj _ => "dict"
  end.

(** ** The outside of the script *)

(** A call [requests.get(url, headers={"Authorization": authorization})]. *)
Record request := mk_request { url : string; authorization : string }.

(** The response object: [.status_code], [.text], and what [.json()] does
    (it raises when the body is not JSON). *)
Record response := mk_response {
  status_code : Z;
  text : string;
  json_of : outcome json
}.

(** [base64.urlsafe_b64decode] takes a [bytes] (line 118) or whatever the
    attachment document holds under ["data"] (line 140). *)
Inductive b64_input :=
| B64Bytes (b : bytes)
| B64Value (v : json).

(** What the script does not define itself:
    - [server]: the reply to a request, given the requests made before it
      ([Raise] for a connection error);
    - [urlsafe_b64decode], [decode_utf8]: [base64.urlsafe_b64decode] and
      [bytes.decode("UTF-8")];
    - [pdf_pages]: [PyPDF2.PdfReader(...).pages], each page standing for
      what its [extract_text()] gives ([None] for Python's [None]);
    - [docx_paragraphs]: the [.text] of each of [Document(...).paragraphs];
    - [describe]: the text CPython puts in the exception it raises when
      an operation is applied to a value of the wrong type;
    - [format_value]: [str(v)] for a float, a list or a dict. *)
Record externals := {
  server : list request -> request -> outcome response;
  urlsafe_b64decode : b64_input -> outcome bytes;
  decode_utf8 : bytes -> outcome string;
  pdf_pages : bytes -> outcome (list (outcome (option string)));
  docx_paragraphs : bytes -> outcome (list string);
  describe : py_op -> json -> string;
  format_value : json -> string
}.

(** The state the script acts on: the requests sent so far (oldest first),
    the files and directories on disk, what was written to the console
    (one entry per write) and the lines still to be read from it.

    Paths are kept as the strings the script builds, relative to the
    working directory: no symbolic links and no normalisation beyond
    trailing slashes.  [dirs] holds directories without trailing slash.
    Two spellings of one path are two paths.  Permissions, read-only and
    full disks are not part of the model. *)
Record world := mk_world {
  sent : list request;
  files : gmap string bytes;
  dirs : gset string;
  stdout : list string;
  stdin : list string
}.

Definition log_request (rq : request) (w : world) : world :=
  mk_world (sent w ++ [rq]) (files w) (dirs w) (stdout w) (stdin w).

Definition write_stdout (s : string) (w : world) : world :=
  mk_world (sent w) (files w) (dirs w) (stdout w ++ [s]) (stdin w).

Definition set_stdin (l : list string) (w : world) : world :=
  mk_world (sent w) (files w) (dirs w) (stdout w) l.

Definition set_files (m : gmap string bytes) (w : world) : world :=
  mk_world (sent w) m (dirs w) (stdout w) (stdin w).

Definition set_dirs (d : gset string) (w : world) : world :=
  mk_world (sent w) (files w) d (stdout w) (stdin w).

(** ** The monad *)

Definition M (A : Type) : Type := world -> outcome A * world.

Definition ret {A} (a : A) : M A := fun w => (Ok a, w).

Definition bind {A B} (m : M A) (k : A -> M B) : M B :=
  fun w =>
    match m w with
    | (Ok a, w') => k a w'
    | (Raise e, w') => (Raise e, w')
    | (Unfinished, w') => (Unfinished, w')
    end.

Definition raise {A} (e : exn) : M A := fun w => (Raise e, w).

Definition unfinished {A} : M A := fun w => (Unfinished, w).

(** A computation that does not touch the world. *)
Definition lift {A} (o : outcome A) : M A := fun w => (o, w).

Notation "x <- m ;; k" := (bind m (fun x => k))
  (at level 100, m at next level, right associativity).
Notation "m ;;; k" := (bind m (fun _ => k))
  (at level 100, right associativity).

(** [try: m  except Exception as e: h e] *)
Definition try_except {A} (m : M A) (h : exn -> M A) : M A :=
  fun w =>
    match m w with
    | (Raise e, w') => h e w'
    | r => r
    end.

(** ** POSIX paths ([os.path] is [posixpath]) *)

Module Path.

(** [p.rstrip("/")] *)
Fixpoint rstrip_slash (p : string) : string :=
  match p with
  | EmptyString => EmptyString
  | String c r =>
      match rstrip_slash r with
      | EmptyString =>
          if Ascii.eqb c Str.slash then EmptyString else String c EmptyString
      | r' => String c r'
      end
  end.

(** [(p[:i], p[i:])] for [i = p.rfind("/") + 1]. *)
Fixpoint rsplit (p : string) : string * string :=
  match p with
  | EmptyString => (EmptyString, EmptyString)
  | String c r =>
      let '(h, t) := rsplit r in
      match h with
      | EmptyString =>
          if Ascii.eqb c Str.slash then (String c EmptyString, t)
          else (EmptyString, String c t)
      | _ => (String c h, t)
      end
  end.

(** A head keeps its slashes when it is made of slashes only. *)
Definition trim (head : string) : string :=
  match rstrip_slash head with
  | EmptyString => head
  | h => h
  end.

(** [os.path.dirname(p)] and [os.path.basename(p)] *)
Definition dirname (p : string) : string := trim (fst (rsplit p)).
Definition basename (p : string) : string := snd (rsplit p).

(** [os.path.join(a, b)] *)
Definition join (a b : string) : string :=
  if String.prefix "/" b then b
  else if String.eqb a "" || Str.endswith a "/" then a +:+ b
  else a +:+ "/" +:+ b.

(** [os.path.split(p)] *)
Definition split (p : string) : string * string := (dirname p, basename p).

(** The head and tail [os.makedirs] works with: a path that ends in a
    slash is split once more, at its head. *)
Definition split_name (name : string) : string * string :=
  let '(head, tail) := split name in
  if String.eqb tail "" then split head else (head, tail).

(** The names between the slashes of [p]; [cur] is the name being read. *)
Fixpoint components (cur p : string) : list string :=
  match p with
  | EmptyString => [cur]
  | String c r =>
      if Ascii.eqb c Str.slash then cur :: components EmptyString r
      else components (cur +:+ String c EmptyString) r
  end.

(** The limits of Linux on the bytes of a name and of a whole path (the
    second counts the closing NUL), and the length of [p] in bytes. *)
Definition NAME_MAX : nat := 255.
Definition PATH_MAX : nat := 4096.

Definition bytes_len (p : string) : nat := length (Str.encode_utf8 p).

Definition nul : ascii := "000"%char.

Definition is_dot (name : string) : bool :=
  String.eqb name "." || String.eqb name "..".

End Path.

(** ** File system, console and network operations *)

(** Does [p] name a directory, given the directories [ds] on record?
    The root; a directory on record; a path that ends in [.] or [..]
    when what comes before names a directory (nothing comes before: the
    working directory).  [fuel] bounds the way up through such ends. *)
Fixpoint names_dir (fuel : nat) (ds : gset string) (p : string) : bool :=
  negb (String.eqb p "")
  && (String.eqb (Path.rstrip_slash p) ""
      || bool_decide (Path.trim p ∈ ds)
      || (Path.is_dot (Path.basename (Path.trim p))
          && (String.eqb (Path.dirname (Path.trim p)) ""
              || match fuel with
                 | O => false
                 | S fuel' => names_dir fuel' ds (Path.dirname (Path.trim p))
                 end))).

Definition is_dir (w : world) (p : string) : bool :=
  names_dir (String.length p) (dirs w) p.

Definition is_file (w : world) (p : string) : bool :=
  bool_decide (is_Some (files w !! p)).

(** A path that no system call takes: it holds a NUL, or is too long as
    a whole or in one of its names. *)
Definition refused (p : string) : bool :=
  Str.mem Path.nul p
  || (Path.PATH_MAX <=? Path.bytes_len p)%nat
  || existsb (fun c => (Path.NAME_MAX <? Path.bytes_len c)%nat)
       (Path.components "" p).

(** [str(e)] of an [OSError] with a file name. *)
Definition os_error (cls : exn_class) (errno what p : string) : exn :=
  mk_exn cls ("[Errno " +:+ errno +:+ "] " +:+ what +:+ ": " +:+ Str.repr p).

Definition embedded_null : exn := mk_exn ValueError "embedded null byte".

(** Why the walk down to [p] stops when [p] names no directory: at a
    file, at [p] or at the first thing there is above it (ENOTDIR), or
    at nothing (ENOENT). *)
Fixpoint file_in_way (fuel : nat) (w : world) (p : string) : bool :=
  is_file w p
  || (negb (is_dir w p)
      && match fuel with
         | O => false
         | S fuel' => file_in_way fuel' w (Path.dirname p)
         end).

Definition walk_error (w : world) (parent p : string) : exn :=
  if file_in_way (String.length parent) w parent then
    os_error NotADirectoryError "20" "Not a directory" p
  else
    os_error FileNotFoundError "2" "No such file or directory" p.

(** [os.path.exists(p)]: false as well when the path is refused. *)
Definition os_path_exists (p : string) : M bool :=
  fun w => (Ok (negb (refused p) && (is_dir w p || is_file w p)), w).

(** [os.mkdir(q)] *)
Definition os_mkdir (q : string) : M unit :=
  fun w =>
    let parent := Path.dirname (Path.trim q) in
    if Str.mem Path.nul q then (Raise embedded_null, w)
    else if (Path.PATH_MAX <=? Path.bytes_len q)%nat then
      (Raise (os_error OSError "36" "File name too long" q), w)
    else if String.eqb q "" then
      (Raise (os_error FileNotFoundError "2" "No such file or directory" q), w)
    else if negb (String.eqb parent "" || is_dir w parent) then
      (Raise (walk_error w parent q), w)
    else if (Path.NAME_MAX <? Path.bytes_len (Path.basename (Path.trim q)))%nat then
      (Raise (os_error OSError "36" "File name too long" q), w)
    else if is_dir w q || is_file w (Path.trim q) then
      (Raise (os_error FileExistsError "17" "File exists" q), w)
    else
      (Ok tt, set_dirs (dirs w ∪ {[Path.trim q]}) w).

(** [try: m  except FileExistsError: pass] *)
Definition except_file_exists (m : M unit) : M unit :=
  fun w =>
    match m w with
    | (Raise e, w') =>
        match exn_cls e with
        | FileExistsError => (Ok tt, w')
        | _ => (Raise e, w')
        end
    | r => r
    end.

(** [os.makedirs(name)], as CPython writes it: the head is made first
    when it is not there, a tail [.] ends the call, and the directory is
    made with [os.mkdir].  A head is shorter than its name, so [fuel], the
    length of the name, is never used up. *)
Fixpoint makedirs_go (fuel : nat) (name : string) : M unit :=
  let '(head, tail) := Path.split_name name in
  stop <-
    (if negb (String.eqb head "") && negb (String.eqb tail "") then
       present <- os_path_exists head ;;
       if present : bool then ret false
       else
         match fuel with
         | O => unfinished
         | S fuel' => except_file_exists (makedirs_go fuel' head)
         end ;;;
         ret (String.eqb tail ".")
     else ret false) ;;
  if stop : bool then ret tt else os_mkdir name.

Definition os_makedirs (name : string) : M unit :=
  makedirs_go (String.length name) name.

(** [open(p, "wb")]: the file is created, or emptied when it exists.
    The checks come in the order the system makes them: the path as a
    whole, the directory it lies in, a slash at the end, the name, what
    is there already. *)
Definition open_wb (p : string) : M unit :=
  fun w =>
    let parent := Path.dirname (Path.trim p) in
    if Str.mem Path.nul p then (Raise embedded_null, w)
    else if (Path.PATH_MAX <=? Path.bytes_len p)%nat then
      (Raise (os_error OSError "36" "File name too long" p), w)
    else if String.eqb p "" then
      (Raise (os_error FileNotFoundError "2" "No such file or directory" p), w)
    else if negb (String.eqb parent "" || is_dir w parent) then
      (Raise (walk_error w parent p), w)
    else if String.eqb (Path.basename p) "" then
      (Raise (os_error IsADirectoryError "21" "Is a directory" p), w)
    else if (Path.NAME_MAX <? Path.bytes_len (Path.basename p))%nat then
      (Raise (os_error OSError "36" "File name too long" p), w)
    else if is_dir w p then
      (Raise (os_error IsADirectoryError "21" "Is a directory" p), w)
    else
      (Ok tt, set_files (<[p := []]> (files w)) w).

(** [f.write(data)] on the file opened at [p]: the bytes go after what the
    file holds. *)
Definition file_write (p : string) (data : bytes) : M unit :=
  fun w =>
    (Ok tt, set_files (<[p := default [] (files w !! p) ++ data]> (files w)) w).

(** [print(s)] *)
Definition print (s : string) : M unit :=
  fun w => (Ok tt, write_stdout (s +:+ Str.nl) w).

(** [input(prompt)] *)
Definition input (prompt : string) : M string :=
  fun w =>
    let w' := write_stdout prompt w in
    match stdin w with
    | [] => (Raise (mk_exn EOFError "EOF when reading a line"), w')
    | line :: rest => (Ok line, set_stdin rest w')
    end.

(** ** The script *)

Section Script.

Context (E : externals).

(** [requests.get(url, headers={"Authorization": f"Bearer {token}"})].
    The request is on record whether or not a response comes back. *)
Definition requests_get (u : string) (access_token : string) : M response :=
  fun w =>
    let rq := mk_request u ("Bearer " +:+ access_token) in
    (server E (sent w) rq, log_request rq w).

(** *** Operators on decoded JSON *)

(** [k in v] for a string [k]: key of a dict, element of a list,
    substring of a string. *)
Definition py_in (k : string) (v : json) : outcome bool :=
  match v with
  | JObj fields => Ok (bool_decide (is_Some (lookup_field k fields)))
  | JArr items => Ok (existsb (is_str k) items)
  | JStr s => Ok (bool_decide (is_Some (String.index 0 k s)))
  | _ => Raise (mk_exn TypeError (describe E OpIn v))
  end.

(** [v[k]] for a string [k] *)
Definition py_getitem (v : json) (k : string) : outcome json :=
  match v with
  | JObj fields =>
      match lookup_field k fields with
      | Some x => Ok x
      | None => Raise (mk_exn KeyError (describe E OpGetItem (JStr k)))
      end
  | _ => Raise (mk_exn TypeError (describe E OpGetItem v))
  end.

(** [v.get(k, dflt)]; only a dict has [get]. *)
Definition py_get (v : json) (k : string) (dflt : json) : outcome json :=
  match v with
  | JObj fields => Ok (default dflt (lookup_field k fields))
  | _ => Raise (mk_exn AttributeError (describe E (OpGetAttr "get") v))
  end.

(** The items a [for] loop or [list.extend] takes from [v]: the elements
    of a list, the characters of a string, the keys of a dict. *)
Definition py_iter (v : json) : outcome (list json) :=
  match v with
  | JArr items => Ok items
  | JStr s => Ok (map (fun c => JStr (String c "")) (list_ascii_of_string s))
  | JObj fields => Ok (map (fun kv => JStr (fst kv)) fields)
  | _ => Raise (mk_exn TypeError (describe E OpIter v))
  end.

(** [v.attr(...)] for a [str] method: any other JSON type lacks it. *)
Definition str_method {A} (v : json) (attr : string) (f : string -> A) : outcome A :=
  match v with
  | JStr s => Ok (f s)
  | _ => Raise (mk_exn AttributeError (describe E (OpGetAttr attr) v))
  end.

(** [f"{v}"] *)
Definition py_str (v : json) : string :=
  match v with
  | JStr s => s
  | JInt z => Str.of_Z z
  | JBool true => "True"
  | JBool false => "False"
  | JNull => "None"
  | _ => format_value E v
  end.

(** *** Text extraction (lines 9-36) *)

(** The loop of [extract_text_from_pdf]:
    [text += page.extract_text() or ""] for each page in turn. *)
Fixpoint pdf_loop (pages : list (outcome (option string))) (text : string)
  : outcome string :=
  match pages with
  | [] => Ok text
  | page :: rest =>
      match page with
      | Ok (Some t) => pdf_loop rest (text +:+ (if String.eqb t "" then "" else t))
      | Ok None => pdf_loop rest (text +:+ "")
      | Raise e => Raise e
      | Unfinished => Unfinished
      end
  end.

Definition extract_text_from_pdf (pdf_data : bytes) : outcome string :=
  match pdf_pages E pdf_data with
  | Ok pages => pdf_loop pages ""
  | Raise e => Raise e
  | Unfinished => Unfinished
  end.

(** The loop of [extract_text_from_docx]: [text += para.text + "\n"]. *)
Fixpoint docx_loop (paragraphs : list string) (text : string) : string :=
  match paragraphs with
  | [] => text
  | para :: rest => docx_loop rest (text +:+ (para +:+ Str.nl))
  end.

Definition extract_text_from_docx (docx_data : bytes) : outcome string :=
  match docx_paragraphs E docx_data with
  | Ok paragraphs => Ok (docx_loop paragraphs "")
  | Raise e => Raise e
  | Unfinished => Unfinished
  end.

Definition unsupported : string :=
  "Unsupported or no text extraction for this file type.".

Definition extract_text_from_attachment (filename : json) (data : bytes)
  : outcome string :=
  match str_method filename "lower" Str.lower with
  | Ok lowered =>
      if Str.endswith lowered ".pdf" then extract_text_from_pdf data
      else if Str.endswith lowered ".docx" then extract_text_from_docx data
      else Ok unsupported
  | Raise e => Raise e
  | Unfinished => Unfinished
  end.

(** *** The persister (lines 39-50) *)

Definition save_attachment_locally
    (filename : json) (data : bytes) (output_dir : string) : M unit :=
  present <- os_path_exists output_dir ;;
  (if negb present then os_makedirs output_dir else ret tt) ;;;
  cleaned_filename <-
    lift (str_method filename "replace" (fun s => Str.replace s "/" "")) ;;
  let filepath := Path.join output_dir cleaned_filename in
  open_wb filepath ;;;
  file_write filepath data ;;;
  print ("Saved attachment: " +:+ filepath).

(** *** Fetching (lines 53-152) *)

Definition userinfo_url : string :=
  "https://www.googleapis.com/oauth2/v1/userinfo".

(** The double quote character, as a string. *)
Definition dq : string := String "034"%char "".

Definition user_query : string :=
  "(subject:" +:+ dq +:+ "your order" +:+ dq
  +:+ " OR subject:receipts OR subject:receipt OR subject:invoice "
  +:+ "OR subject:invoices OR subject:" +:+ dq +:+ "insurance" +:+ dq
  +:+ " OR subject:" +:+ dq +:+ "health report" +:+ dq +:+ " "
  +:+ "OR category:purchases OR label:receipts OR label:invoices "
  +:+ "OR label:insurance OR label:health) has:attachment".

Definition messages_url : string :=
  "https://www.googleapis.com/gmail/v1/users/me/messages".

(** The URL of one turn of the pagination loop (lines 81-83). *)
Definition gmail_url (page_token : json) : string :=
  let u := messages_url +:+ "?q=" +:+ user_query in
  if truthy page_token then u +:+ "&pageToken=" +:+ py_str page_token else u.

(** The [while True] loop of lines 80-94; [fuel] bounds its turns. *)
Fixpoint search_loop (fuel : nat) (access_token : string)
    (page_token : json) (messages : list json) : M (list json) :=
  match fuel with
  | O => unfinished
  | S fuel' =>
      response <- requests_get (gmail_url page_token) access_token ;;
      gmail_data <- lift (json_of response) ;;
      has_messages <- lift (py_in "messages" gmail_data) ;;
      messages <-
        (if has_messages : bool then
           found <- lift (py_getitem gmail_data "messages") ;;
           items <- lift (py_iter found) ;;
           ret (messages ++ items)
         else ret messages) ;;
      has_next <- lift (py_in "nextPageToken" gmail_data) ;;
      if has_next : bool then
        page_token <- lift (py_getitem gmail_data "nextPageToken") ;;
        search_loop fuel' access_token page_token messages
      else ret messages
  end.

(** [a in v and b in v[a]] *)
Definition has_nested (v : json) (a b : string) : outcome bool :=
  match py_in a v with
  | Ok true =>
      match py_getitem v a with
      | Ok inner => py_in b inner
      | Raise e => Raise e
      | Unfinished => Unfinished
      end
  | r => r
  end.

Definition attachment_url (message_id attachment_id : json) : string :=
  messages_url +:+ "/" +:+ py_str message_id
  +:+ "/attachments/" +:+ py_str attachment_id.

(** The body of the loop over parts (lines 122-150); the result is the
    value of [attachment_count] after it. *)
Definition process_part (access_token : string) (message_id : json)
    (part : json) (attachment_count : nat) : M nat :=
  is_attachment <- lift (has_nested part "body" "attachmentId") ;;
  if is_attachment : bool then
    body <- lift (py_getitem part "body") ;;
    attachment_id <- lift (py_getitem body "attachmentId") ;;
    filename <- lift (py_get part "filename" (JStr "untitled.txt")) ;;
    attachment_resp <-
      requests_get (attachment_url message_id attachment_id) access_token ;;
    attachment_data <- lift (json_of attachment_resp) ;;
    data_base64 <- lift (py_get attachment_data "data" JNull) ;;
    if negb (truthy data_base64) then ret attachment_count
    else
      attachment_content <- lift (urlsafe_b64decode E (B64Value data_base64)) ;;
      save_attachment_locally filename attachment_content "attachments" ;;;
      text <- lift (extract_text_from_attachment filename attachment_content) ;;
      print ("Extracted text from " +:+ py_str filename +:+ ":") ;;;
      print text ;;;
      ret (attachment_count + 1)
  else ret attachment_count.

(** [for part in ...] (line 121) *)
Fixpoint process_parts (access_token : string) (message_id : json)
    (parts : list json) (attachment_count : nat) : M nat :=
  match parts with
  | [] => ret attachment_count
  | part :: rest =>
      attachment_count <- process_part access_token message_id part attachment_count ;;
      process_parts access_token message_id rest attachment_count
  end.

(** Lines 114-118: the message body is decoded and dropped; only a
    failure of the decoding shows. *)
Definition decode_body (message_data : json) : M unit :=
  has_payload <- lift (py_in "payload" message_data) ;;
  if has_payload : bool then
    payload <- lift (py_getitem message_data "payload") ;;
    has_data <- lift (has_nested payload "body" "data") ;;
    if has_data : bool then
      body <- lift (py_getitem payload "body") ;;
      body_data <- lift (py_getitem body "data") ;;
      encoded <- lift (str_method body_data "encode" Str.encode_utf8) ;;
      raw <- lift (urlsafe_b64decode E (B64Bytes encoded)) ;;
      body_content <- lift (decode_utf8 E raw) ;;
      ret tt
    else ret tt
  else ret tt.

(** The body of the loop over messages (lines 101-150). *)
Definition process_message (access_token : string) (message : json)
    (attachment_count : nat) : M nat :=
  if negb (truthy message) then ret attachment_count
  else
    message_id <- lift (py_get message "id" JNull) ;;
    if negb (truthy message_id) then ret attachment_count
    else
      message_response <-
        requests_get (messages_url +:+ "/" +:+ py_str message_id) access_token ;;
      message_data <- lift (json_of message_response) ;;
      decode_body message_data ;;;
      has_parts <- lift (has_nested message_data "payload" "parts") ;;
      if has_parts : bool then
        payload <- lift (py_getitem message_data "payload") ;;
        found <- lift (py_getitem payload "parts") ;;
        parts <- lift (py_iter found) ;;
        process_parts access_token message_id parts attachment_count
      else ret attachment_count.

(** [for i, message in enumerate(messages)] (line 100) *)
Fixpoint process_messages (access_token : string) (messages : list json)
    (attachment_count : nat) : M nat :=
  match messages with
  | [] => ret attachment_count
  | message :: rest =>
      attachment_count <- process_message access_token message attachment_count ;;
      process_messages access_token rest attachment_count
  end.

Definition fetch_and_save_attachments (fuel : nat) (access_token : string)
  : M unit :=
  user_info <- requests_get userinfo_url access_token ;;
  if negb (status_code user_info =? 200)%Z then
    raise (mk_exn Exception ("Failed to fetch user info: " +:+ text user_info))
  else
    messages <- search_loop fuel access_token JNull [] ;;
    print ("Total messages found: " +:+ Str.of_nat (length messages)) ;;;
    attachment_count <- process_messages access_token messages 0 ;;
    print ("Total attachments processed: " +:+ Str.of_nat attachment_count).

(** *** Entry point (lines 155-171) *)

Definition main (fuel : nat) : M unit :=
  typed_token <- input "Enter your Google OAuth2 Access Token: " ;;
  let access_token_new := Str.strip typed_token in
  typed_brand <- input "Enter the brand name: " ;;
  let brand_name := Str.strip typed_brand in
  if String.eqb access_token_new "" then
    print "No access token provided. Exiting."
  else
    try_except
      (fetch_and_save_attachments fuel access_token_new)
      (fun e => print ("An error occurred: " +:+ exn_str e)).

End Script.

(** ** The specification's words *)

(** Two strings are the same when case is ignored: they lower to the same
    string. *)
Definition same_ignoring_case (a b : string) : Prop :=
  Str.lower a = Str.lower b.

(** [filename] ends in [ext] when case is ignored: its last characters are
    [ext] up to case. *)
Definition ends_with_ignoring_case (filename ext : string) : Prop :=
  exists stem tail, filename = stem +:+ tail /\ same_ignoring_case tail ext.

(** Each paragraph's text followed by a newline, in paragraph order. *)
Definition paragraphs_with_newlines (paragraphs : list string) : string :=
  foldr (fun para rest => para +:+ Str.nl +:+ rest) EmptyString paragraphs.

(** The ["messages"] array of a page; a page without one has none. *)
Definition page_messages (page : json) : list json :=
  match page with
  | JObj fields =>
      match lookup_field "messages" fields with
      | Some (JArr items) => items
      | _ => []
      end
  | _ => []
  end.

(** Does the page carry a continuation token? *)
Definition has_token (page : json) : bool :=
  match page with
  | JObj fields => bool_decide (is_Some (lookup_field "nextPageToken" fields))
  | _ => false
  end.

Definition next_token (page : json) : json :=
  match page with
  | JObj fields => default JNull (lookup_field "nextPageToken" fields)
  | _ => JNull
  end.

(** A page response: a JSON object whose ["messages"], when present, is an
    array. *)
Definition is_page (page : json) : Prop :=
  exists fields,
    page = JObj fields
    /\ (lookup_field "messages" fields = None
        \/ exists items, lookup_field "messages" fields = Some (JArr items)).

Section Pages.

Context (E : externals).

(** The search request that follows a page token. *)
Definition search_request (access_token : string) (page_token : json) : request :=
  mk_request (gmail_url E page_token) ("Bearer " +:+ access_token).

(** The search requests that a sequence of pages draws, the first one
    made with [page_token]. *)
Fixpoint page_requests (access_token : string) (page_token : json)
    (pages : list json) : list request :=
  match pages with
  | [] => []
  | page :: rest =>
      search_request access_token page_token
      :: page_requests access_token (next_token page) rest
  end.

(** The server answers the search requests made after [history] with
    [pages], one page per request, in order. *)
Fixpoint serves (access_token : string) (history : list request)
    (page_token : json) (pages : list json) : Prop :=
  match pages with
  | [] => True
  | page :: rest =>
      let rq := search_request access_token page_token in
      (exists resp, server E history rq = Ok resp /\ json_of resp = Ok page)
      /\ serves access_token (history ++ [rq]) (next_token page) rest
  end.

End Pages.

(** The world after the requests [rqs] have gone out. *)
Definition log_requests (rqs : list request) (w : world) : world :=
  mk_world (sent w ++ rqs) (files w) (dirs w) (stdout w) (stdin w).

(** The request for the body of an attachment. *)
Definition attachment_request (E : externals) (access_token : string)
    (message_id attachment_id : json) : request :=
  mk_request (attachment_url E message_id attachment_id)
             ("Bearer " +:+ access_token).

(** ** A small mailbox, for running the script *)

Module Demo.

(** The bytes of [Hi]. *)
Definition hi : bytes := [Byte.x48; Byte.x69].

(** A decoder that knows one word. *)
Definition b64 (input : b64_input) : outcome bytes :=
  match input with
  | B64Value (JStr s) =>
      if String.eqb s "SGk=" then Ok hi
      else Raise (mk_exn (LibraryError "binascii.Error") "Incorrect padding")
  | B64Value _ =>
      Raise (mk_exn TypeError "argument should be a bytes-like object or ASCII string")
  | B64Bytes _ => Ok []
  end.

(** A server that answers the n-th request with the n-th entry of
    [script], whatever is asked. *)
Definition scripted (script : list response)
    (history : list request) (rq : request) : outcome response :=
  match script !! length history with
  | Some resp => Ok resp
  | None => Raise (mk_exn (LibraryError "ConnectionError") "connection refused")
  end.

Definition env (script : list response) : externals := {|
  server := scripted script;
  urlsafe_b64decode := b64;
  decode_utf8 := fun b => Ok (string_of_list_byte b);
  pdf_pages := fun _ => Ok [Ok (Some "page one"); Ok None];
  docx_paragraphs := fun _ => Ok ["A"; "B"];
  describe := fun _ v => type_name v;
  format_value := fun _ => "?"
|}.

Definition ok (v : json) : response := mk_response 200 "" (Ok v).

Definition message (id : string) : json := JObj [("id", JStr id)].

Definition page1 : json :=
  JObj [("messages", JArr [message "m1"]); ("nextPageToken", JStr "t2")].
Definition page2 : json :=
  JObj [("nextPageToken", JStr "t3")].
Definition page3 : json :=
  JObj [("messages", JArr [message "m2"; message "m3"])].

(** A part with a file name that tries to leave the directory. *)
Definition named_part : json :=
  JObj [("filename", JStr "../notes.txt");
        ("body", JObj [("attachmentId", JStr "att1")])].

Definition unnamed_part : json :=
  JObj [("body", JObj [("attachmentId", JStr "att2")])].

Definition detail (parts : list json) : json :=
  JObj [("payload", JObj [("parts", JArr parts)])].

Definition with_data : json := JObj [("size", JInt 2); ("data", JStr "SGk=")].
Definition without_data : json := JObj [("size", JInt 0)].

(** A whole session: user info, two pages, then two messages with one
    attachment each, the second without data. *)
Definition session : list response :=
  [ ok (JObj [("email", JStr "a@b.c")]);
    ok page1;
    ok (JObj [("messages", JArr [message "m2"])]);
    ok (detail [named_part]);
    ok with_data;
    ok (detail [unnamed_part]);
    ok without_data ].

(** Nothing sent, an empty disk, nothing typed. *)
Definition fresh : world := mk_world [] ∅ ∅ [] [].

End Demo.

(** ** What a run may change *)

(** A path directly in the directory [attachments]. *)
Definition in_attachments (p : string) : Prop :=
  Path.dirname p = "attachments" /\ Str.mem Str.slash (Path.basename p) = false.

(** From [w] to [w'], no more happened than this: requests went out, all
    with the bearer token [access_token]; text was written to the console;
    nothing was read from it; the directory [attachments] was made; files
    directly in it were written. *)
Record frame (access_token : string) (w w' : world) : Prop := mk_frame {
  frame_sent :
    exists rqs, sent w' = sent w ++ rqs
      /\ Forall (fun rq => authorization rq = "Bearer " +:+ access_token) rqs;
  frame_stdout : exists out, stdout w' = stdout w ++ out;
  frame_stdin : stdin w' = stdin w;
  frame_dirs : dirs w' ⊆ dirs w ∪ {["attachments"]};
  frame_files : forall p, files w' !! p <> files w !! p -> in_attachments p
}.

(** The computation [m] stays within [frame], from every world. *)
Definition keeps (access_token : string) {A} (m : M A) : Prop :=
  forall w, frame access_token w (snd (m w)).

(** The text of a PDF whose pages gave [texts]: the texts end to end, a
    page without text counting for nothing. *)
Definition pages_text (texts : list (option string)) : string :=
  foldr (fun t rest => default EmptyString t +:+ rest) EmptyString texts.

(** A part that the loop over parts takes for an attachment: an object
    with a ["body"] that holds ["attachmentId"]. *)
Definition is_attachment_part (part : json) : bool :=
  match part with
  | JObj fields =>
      match lookup_field "body" fields with
      | Some (JObj body_fields) =>
          bool_decide (is_Some (lookup_field "attachmentId" body_fields))
      | _ => false
      end
  | _ => false
  end.

#[global] Instance byte_eq_dec : EqDecision Byte.byte := Byte.byte_eq_dec.

(** The token that [main] works with: the first line typed, stripped. *)
Definition typed_token (w : world) : string :=
  Str.strip (hd EmptyString (stdin w)).

(** A string of white space only. *)
Fixpoint all_space (s : string) : bool :=
  match s with
  | EmptyString => true
  | String c r => Str.isspace c && all_space r
  end.

(** The request that opens a fetch. *)
Definition userinfo_request (access_token : string) : request :=
  mk_request userinfo_url ("Bearer " +:+ access_token).

(** The values that [m] can return are within [P]. *)
Definition yields {A} (P : A -> Prop) (m : M A) : Prop :=
  forall w a w', m w = (Ok a, w') -> P a.

(** A part that is no attachment: an object without ["body"], or with a
    ["body"] object that has no ["attachmentId"]. *)
Definition plain_part (part : json) : Prop :=
  exists fields,
    part = JObj fields
    /\ (lookup_field "body" fields = None
        \/ exists body_fields,
             lookup_field "body" fields = Some (JObj body_fields)
             /\ lookup_field "attachmentId" body_fields = None).

(** A message reference that the loop over messages passes over: a falsy
    value, or an object whose ["id"] is missing or falsy. *)
Definition without_id (message : json) : Prop :=
  truthy message = false
  \/ exists fields,
       message = JObj fields
       /\ truthy (default JNull (lookup_field "id" fields)) = false.

(** The part [part] of message [message_id] is an attachment whose bytes
    [content] arrive from the server in world [w]; [filename] is the name
    the part gives, or [untitled.txt]. *)
Definition attachment_arrives (E : externals) (access_token : string)
    (message_id part : json) (w : world)
    (attachment_id filename : json) (content : bytes) : Prop :=
  exists fields body_fields resp document data_base64,
    part = JObj fields
    /\ lookup_field "body" fields = Some (JObj body_fields)
    /\ lookup_field "attachmentId" body_fields = Some attachment_id
    /\ filename = default (JStr "untitled.txt") (lookup_field "filename" fields)
    /\ server E (sent w) (attachment_request E access_token message_id attachment_id)
       = Ok resp
    /\ json_of resp = Ok (JObj document)
    /\ lookup_field "data" document = Some data_base64
    /\ truthy data_base64 = true
    /\ urlsafe_b64decode E (B64Value data_base64) = Ok content.

(** ** More mailboxes *)

Module Sample.

(** What PyPDF2 raises on a page it cannot read. *)
Definition bad_page : exn := mk_exn (LibraryError "PdfReadError") "bad page".

(** The small mailbox with a PDF reader that fails on the second page. *)
Definition broken (script : list response) : externals := {|
  server := Demo.scripted script;
  urlsafe_b64decode := Demo.b64;
  decode_utf8 := fun b => Ok (string_of_list_byte b);
  pdf_pages := fun _ => Ok [Ok (Some "one"); Raise bad_page; Ok (Some "three")];
  docx_paragraphs := fun _ => Ok ["A"; "B"];
  describe := fun _ v => type_name v;
  format_value := fun _ => "?"
|}.

(** A server whose every answer is a page with an empty continuation
    token. *)
Definition endless : externals := {|
  server := fun _ _ => Ok (Demo.ok (JObj [("nextPageToken", JStr "")]));
  urlsafe_b64decode := Demo.b64;
  decode_utf8 := fun b => Ok (string_of_list_byte b);
  pdf_pages := fun _ => Ok [];
  docx_paragraphs := fun _ => Ok [];
  describe := fun _ v => type_name v;
  format_value := fun _ => "?"
|}.

(** A part whose file name is JSON null. *)
Definition null_named_part : json :=
  JObj [("filename", JNull); ("body", JObj [("attachmentId", JStr "att1")])].

(** A part whose file name ends in [.pdf]. *)
Definition pdf_part : json :=
  JObj [("filename", JStr "bill.PDF");
        ("body", JObj [("attachmentId", JStr "att1")])].

(** The world of a session at the keyboard. *)
Definition typed (lines : list string) : world := set_stdin lines Demo.fresh.

(** A file name with a NUL in it, and one of 256 letters. *)
Definition nul_name : string := String "a" (String Path.nul "b.pdf").

Definition long_name : string := string_of_list_ascii (List.repeat "x"%char 256).

End Sample.

(** * Properties *)

(** ** The model at work *)

Example lower_mixed : Str.lower "Invoice.PDF" = "invoice.pdf".
Proof. reflexivity. Qed.

Example endswith_pdf : Str.endswith (Str.lower "a.b.Pdf") ".pdf" = true.
Proof. reflexivity. Qed.

Example endswith_short : Str.endswith "pdf" ".pdf" = false.
Proof. reflexivity. Qed.

Example replace_slashes : Str.replace "../../etc/passwd" "/" "" = "....etcpasswd".
Proof. reflexivity. Qed.

Example replace_word : Str.replace "aXYbXYXYc" "XY" "-" = "a-b--c".
Proof. reflexivity. Qed.

Example strip_token : Str.strip "  ya29.a0 b  " = "ya29.a0 b".
Proof. reflexivity. Qed.

Example strip_blank : Str.strip "   " = "".
Proof. reflexivity. Qed.

Example of_nat_12 : Str.of_nat 12 = "12".
Proof. reflexivity. Qed.

Example of_Z_neg : Str.of_Z (-7) = "-7".
Proof. reflexivity. Qed.

Lemma bind_ret_l {A B} (a : A) (k : A -> M B) w : bind (ret a) k w = k a w.
Proof. reflexivity. Qed.

Lemma bind_assoc {A B C} (m : M A) (k : A -> M B) (h : B -> M C) w :
  bind (bind m k) h w = bind m (fun a => bind (k a) h) w.
Proof. unfold bind. destruct (m w) as [[a|e|] w']; reflexivity. Qed.

Example dirname_nested : Path.dirname "attachments/a.pdf" = "attachments".
Proof. reflexivity. Qed.

Example dirname_root : Path.dirname "/passwd" = "/".
Proof. reflexivity. Qed.

Example dirname_plain : Path.dirname "a.pdf" = "".
Proof. reflexivity. Qed.

Example basename_nested : Path.basename "out/sub/a.pdf" = "a.pdf".
Proof. reflexivity. Qed.

Example join_plain : Path.join "attachments" "a.pdf" = "attachments/a.pdf".
Proof. reflexivity. Qed.

Example join_absolute : Path.join "attachments" "/etc/passwd" = "/etc/passwd".
Proof. reflexivity. Qed.

Example join_trailing : Path.join "out/" "a.pdf" = "out/a.pdf".
Proof. reflexivity. Qed.

(** A list that holds the key passes the [in] test and then fails the
    indexing, as in CPython. *)
Example in_list_then_getitem :
  py_in (Demo.env []) "payload" (JArr [JStr "payload"]) = Ok true
  /\ py_getitem (Demo.env []) (JArr [JStr "payload"]) "payload"
     = Raise (mk_exn TypeError "list").
Proof. split; reflexivity. Qed.

Example in_number_raises :
  py_in (Demo.env []) "messages" (JInt 3) = Raise (mk_exn TypeError "int").
Proof. reflexivity. Qed.

Example get_on_string_raises :
  py_get (Demo.env []) (JStr "m1") "id" JNull
  = Raise (mk_exn AttributeError "str").
Proof. reflexivity. Qed.

(** An empty continuation token is a token all the same, but the next
    request carries none. *)
Example empty_token_page :
  has_token (JObj [("nextPageToken", JStr "")]) = true
  /\ gmail_url (Demo.env []) (JStr "") = gmail_url (Demo.env []) JNull.
Proof. split; reflexivity. Qed.

(** A second save under the same name replaces the first. *)
Example last_write_wins :
  let E := Demo.env [] in
  let w1 := snd (save_attachment_locally E (JStr "a.bin") [Byte.x01]
                   "attachments" Demo.fresh) in
  let w2 := snd (save_attachment_locally E (JStr "/a.bin") Demo.hi
                   "attachments" w1) in
  map_to_list (files w2) = [("attachments/a.bin", Demo.hi)].
Proof. vm_compute. reflexivity. Qed.

(** The names that are left as a directory are refused by [open]. *)
Example dot_dot_is_refused :
  let r := save_attachment_locally (Demo.env []) (JStr "../") Demo.hi
             "attachments" Demo.fresh in
  fst r = Raise (mk_exn IsADirectoryError
                   "[Errno 21] Is a directory: 'attachments/..'")
  /\ files (snd r) = ∅.
Proof. vm_compute. split; reflexivity. Qed.

(** ** Strings *)

Lemma app_String (c : ascii) (a b : string) :
  String c a +:+ b = String c (a +:+ b).
Proof. reflexivity. Qed.

Lemma app_Empty (b : string) : EmptyString +:+ b = b.
Proof. reflexivity. Qed.

Lemma length_app_str (a b : string) :
  String.length (a +:+ b) = String.length a + String.length b.
Proof. induction a as [|c a IH]; simpl; [reflexivity | now rewrite IH]. Qed.

Lemma lower_app (a b : string) :
  Str.lower (a +:+ b) = Str.lower a +:+ Str.lower b.
Proof. induction a as [|c a IH]; simpl; [reflexivity | now rewrite IH]. Qed.

Lemma substring_all (s : string) : substring 0 (String.length s) s = s.
Proof. induction s as [|c s IH]; simpl; [reflexivity | now rewrite IH]. Qed.

Lemma substring_split (k : nat) (s : string) :
  k <= String.length s ->
  s = substring 0 k s +:+ substring k (String.length s - k) s.
Proof.
  revert k. induction s as [|c s IH]; intros k Hk; simpl in *.
  - destruct k; [reflexivity | lia].
  - destruct k as [|k]; simpl.
    + now rewrite substring_all.
    + rewrite app_String. f_equal. apply IH. lia.
Qed.

Lemma endswith_true (s suffix : string) :
  Str.endswith s suffix = true -> exists pre, s = pre +:+ suffix.
Proof.
  unfold Str.endswith. intros H.
  apply andb_true_iff in H as [Hle Heq].
  apply Nat.leb_le in Hle. apply String.eqb_eq in Heq.
  exists (substring 0 (String.length s - String.length suffix) s).
  pose proof (substring_split (String.length s - String.length suffix) s
                ltac:(lia)) as Hs.
  replace (String.length s - (String.length s - String.length suffix))
    with (String.length suffix) in Hs by lia.
  now rewrite Heq in Hs.
Qed.

Lemma substring_app_r (pre suffix : string) :
  substring (String.length pre) (String.length suffix) (pre +:+ suffix) = suffix.
Proof.
  induction pre as [|c pre IH].
  - rewrite app_Empty. apply substring_all.
  - rewrite app_String. exact IH.
Qed.

Lemma endswith_app (pre suffix : string) :
  Str.endswith (pre +:+ suffix) suffix = true.
Proof.
  unfold Str.endswith. rewrite length_app_str.
  apply andb_true_iff. split.
  - apply Nat.leb_le. lia.
  - apply String.eqb_eq.
    replace (String.length pre + String.length suffix - String.length suffix)
      with (String.length pre) by lia.
    apply substring_app_r.
Qed.

(** A lowered string that splits comes from a string that splits the same
    way. *)
Lemma lower_split (s pre suffix : string) :
  Str.lower s = pre +:+ suffix ->
  exists stem tail, s = stem +:+ tail /\ Str.lower tail = suffix.
Proof.
  revert s. induction pre as [|c pre IH]; intros s H; simpl in H.
  - exists EmptyString, s. split; [reflexivity | exact H].
  - destruct s as [|d s]; simpl in H; [discriminate|].
    injection H as Hc Hs.
    destruct (IH s Hs) as (stem & tail & -> & Ht).
    exists (String d stem), tail. split; [reflexivity | exact Ht].
Qed.

Lemma app_assoc_str (a b c : string) : (a +:+ b) +:+ c = a +:+ (b +:+ c).
Proof.
  induction a as [|x a IH]; [reflexivity|].
  rewrite !app_String. now rewrite IH.
Qed.

Lemma app_Empty_r (a : string) : a +:+ EmptyString = a.
Proof.
  induction a as [|x a IH]; [reflexivity|].
  rewrite app_String. now rewrite IH.
Qed.

(** The code's test and the specification's wording agree. *)
Lemma endswith_lower_iff (filename ext : string) :
  Str.lower ext = ext ->
  Str.endswith (Str.lower filename) ext = true
  <-> ends_with_ignoring_case filename ext.
Proof.
  intros Hext. split.
  - intros H. apply endswith_true in H as [pre Hpre].
    apply lower_split in Hpre as (stem & tail & -> & Ht).
    exists stem, tail. split; [reflexivity|].
    unfold same_ignoring_case. congruence.
  - intros (stem & tail & -> & Ht). unfold same_ignoring_case in Ht.
    rewrite lower_app, Ht, Hext. apply endswith_app.
Qed.

Section TextExtraction.

Context (E : externals).

(** C6: a filename that ends neither in [.pdf] nor in [.docx], case
    ignored, gets the fixed sentence that the type is unsupported,
    whatever the bytes are. *)
Theorem unsupported_extension_gives_sentinel (filename : string) (data : bytes) :
  ~ ends_with_ignoring_case filename ".pdf" ->
  ~ ends_with_ignoring_case filename ".docx" ->
  extract_text_from_attachment E (JStr filename) data
  = Ok "Unsupported or no text extraction for this file type.".
Proof.
  intros Hpdf Hdocx. unfold extract_text_from_attachment, str_method.
  destruct (Str.endswith (Str.lower filename) ".pdf") eqn:Ep.
  { exfalso. apply Hpdf. now apply endswith_lower_iff. }
  destruct (Str.endswith (Str.lower filename) ".docx") eqn:Ed.
  { exfalso. apply Hdocx. now apply endswith_lower_iff. }
  reflexivity.
Qed.

Lemma docx_loop_acc (paragraphs : list string) (acc : string) :
  docx_loop paragraphs acc = acc +:+ paragraphs_with_newlines paragraphs.
Proof.
  revert acc. induction paragraphs as [|para rest IH]; intros acc; simpl.
  - now rewrite app_Empty_r.
  - rewrite IH. now rewrite !app_assoc_str.
Qed.

(** C7: the text of a DOCX is each paragraph's text followed by a
    newline, in paragraph order; paragraphs A and B give A, newline, B,
    newline. *)
Theorem docx_text_is_paragraphs_with_newlines (data : bytes) :
  (docx_paragraphs E data = Ok ["A"; "B"] ->
   extract_text_from_docx E data = Ok ("A" +:+ Str.nl +:+ "B" +:+ Str.nl))
  /\ (forall paragraphs,
        docx_paragraphs E data = Ok paragraphs ->
        extract_text_from_docx E data = Ok (paragraphs_with_newlines paragraphs)).
Proof.
  assert (Hgen : forall paragraphs,
             docx_paragraphs E data = Ok paragraphs ->
             extract_text_from_docx E data
             = Ok (paragraphs_with_newlines paragraphs)).
  { intros paragraphs H. unfold extract_text_from_docx. rewrite H.
    now rewrite docx_loop_acc, app_Empty. }
  split; [|exact Hgen].
  intros H. now rewrite (Hgen _ H).
Qed.

End TextExtraction.

(** ** Paths *)

Lemma prefix_slash (c : ascii) (r : string) :
  String.prefix "/" (String c r) = Ascii.eqb c Str.slash.
Proof.
  cbn [String.prefix].
  destruct (Ascii.ascii_dec "/" c) as [<-|Hne].
  - destruct r; reflexivity.
  - symmetry. apply Ascii.eqb_neq. unfold Str.slash. congruence.
Qed.

Lemma replace_slash_cons (c : ascii) (r : string) :
  Str.replace (String c r) "/" ""
  = if Ascii.eqb c Str.slash then Str.replace r "/" ""
    else String c (Str.replace r "/" "").
Proof.
  unfold Str.replace. cbn [Str.replace_from]. rewrite prefix_slash.
  destruct (Ascii.eqb c Str.slash); reflexivity.
Qed.

Lemma replace_slash_no_slash (s : string) :
  Str.mem Str.slash (Str.replace s "/" "") = false.
Proof.
  induction s as [|c s IH]; [reflexivity|].
  rewrite replace_slash_cons.
  destruct (Ascii.eqb_spec c Str.slash) as [->|Hne]; [exact IH|].
  cbn [Str.mem]. rewrite IH, orb_false_r.
  apply Ascii.eqb_neq. congruence.
Qed.

Lemma rsplit_no_slash (t : string) :
  Str.mem Str.slash t = false -> Path.rsplit t = (EmptyString, t).
Proof.
  induction t as [|c t IH]; intros H; [reflexivity|].
  cbn [Str.mem] in H. apply orb_false_iff in H as [Hc Ht].
  cbn [Path.rsplit]. rewrite (IH Ht). rewrite Ascii.eqb_sym, Hc. reflexivity.
Qed.

Lemma rsplit_after_slash (a t : string) :
  Str.mem Str.slash t = false ->
  Path.rsplit (a +:+ "/" +:+ t) = (a +:+ "/", t).
Proof.
  intros Ht. induction a as [|c a IH].
  - rewrite !app_Empty. change ("/" +:+ t) with (String Str.slash t).
    cbn [Path.rsplit]. now rewrite (rsplit_no_slash _ Ht).
  - change (String c a +:+ "/" +:+ t) with (String c (a +:+ "/" +:+ t)).
    cbn [Path.rsplit]. rewrite IH.
    destruct a; reflexivity.
Qed.

Lemma rstrip_slash_snoc (a : string) :
  Path.rstrip_slash (a +:+ "/") = Path.rstrip_slash a.
Proof.
  induction a as [|c a IH]; [reflexivity|].
  rewrite app_String. cbn [Path.rstrip_slash]. now rewrite IH.
Qed.

Lemma rstrip_slash_cases (d : string) :
  Path.rstrip_slash d = d \/ exists a, d = a +:+ "/".
Proof.
  induction d as [|c d IH]; [now left|].
  destruct IH as [IH|[a ->]].
  - destruct d as [|c' d].
    + cbn [Path.rstrip_slash].
      destruct (Ascii.eqb_spec c Str.slash) as [->|_].
      * right. now exists EmptyString.
      * now left.
    + left. cbn [Path.rstrip_slash] in *. rewrite IH. reflexivity.
  - right. now exists (String c a).
Qed.

Lemma rstrip_slash_idem (d : string) :
  Path.rstrip_slash (Path.rstrip_slash d) = Path.rstrip_slash d.
Proof.
  induction d as [|c d IH]; [reflexivity|].
  cbn [Path.rstrip_slash]. destruct (Path.rstrip_slash d) as [|c' d'] eqn:Ed.
  - destruct (Ascii.eqb c Str.slash) eqn:Ec; cbn [Path.rstrip_slash];
      [reflexivity | now rewrite Ec].
  - cbn [Path.rstrip_slash] in *. rewrite IH. reflexivity.
Qed.

Lemma trim_idem (d : string) : Path.trim (Path.trim d) = Path.trim d.
Proof.
  unfold Path.trim. destruct (Path.rstrip_slash d) as [|c r] eqn:Ed.
  - now rewrite Ed.
  - rewrite <- Ed, rstrip_slash_idem, Ed. reflexivity.
Qed.

Lemma rstrip_slash_trim (d : string) :
  Path.rstrip_slash (Path.trim d) = Path.rstrip_slash d.
Proof.
  unfold Path.trim. destruct (Path.rstrip_slash d) as [|c r] eqn:Ed.
  - exact Ed.
  - rewrite <- Ed. apply rstrip_slash_idem.
Qed.

(** Where the joined path lies: in the output directory, under the cleaned
    name. *)
Lemma rsplit_join (d t : string) :
  Str.mem Str.slash t = false ->
  Path.dirname (Path.join d t) = Path.trim d
  /\ Path.basename (Path.join d t) = t.
Proof.
  intros Ht. unfold Path.join, Path.dirname, Path.basename.
  assert (Hp : String.prefix "/" t = false).
  { destruct t as [|c t]; [reflexivity|]. rewrite prefix_slash.
    simpl in Ht. apply orb_false_iff in Ht as [Hc _].
    now rewrite Ascii.eqb_sym. }
  rewrite Hp.
  destruct (String.eqb_spec d "") as [->|Hd]; cbn [orb].
  { rewrite app_Empty, (rsplit_no_slash _ Ht). now split. }
  destruct (Str.endswith d "/") eqn:Es.
  - apply endswith_true in Es as [a ->].
    rewrite app_assoc_str, (rsplit_after_slash _ _ Ht). now split.
  - rewrite (rsplit_after_slash _ _ Ht). cbn [fst snd]. split; [|reflexivity].
    unfold Path.trim. rewrite rstrip_slash_snoc.
    destruct (rstrip_slash_cases d) as [Hr|[a ->]].
    + rewrite Hr. destruct d; [now elim Hd | reflexivity].
    + now rewrite endswith_app in Es.
Qed.

Lemma rstrip_slash_no_slash (t : string) :
  Str.mem Str.slash t = false -> Path.rstrip_slash t = t.
Proof.
  induction t as [|c t IH]; intros H; [reflexivity|].
  cbn [Str.mem] in H. apply orb_false_iff in H as [Hc Ht].
  cbn [Path.rstrip_slash]. rewrite (IH Ht).
  destruct t; [|reflexivity]. now rewrite Ascii.eqb_sym, Hc.
Qed.

Lemma rstrip_slash_app_name (a t : string) :
  t <> EmptyString -> Str.mem Str.slash t = false ->
  Path.rstrip_slash (a +:+ t) = a +:+ t.
Proof.
  intros Hne Ht. induction a as [|c a IH].
  - rewrite app_Empty. now apply rstrip_slash_no_slash.
  - rewrite app_String. cbn [Path.rstrip_slash]. rewrite IH.
    destruct (a +:+ t) eqn:Ea; [|reflexivity].
    destruct a; [rewrite app_Empty in Ea; contradiction | discriminate].
Qed.

Lemma join_shape (d t : string) :
  Str.mem Str.slash t = false -> exists a, Path.join d t = a +:+ t.
Proof.
  intros Ht. unfold Path.join.
  destruct (String.prefix "/" t) eqn:Hp.
  { destruct t as [|c t]; [discriminate|]. rewrite prefix_slash in Hp.
    cbn [Str.mem] in Ht. apply orb_false_iff in Ht as [Hc _].
    rewrite Ascii.eqb_sym in Hc. congruence. }
  destruct (_ || _).
  - now exists d.
  - exists (d +:+ "/"). now rewrite app_assoc_str.
Qed.

(** A joined path with a proper name at its end is its own trimmed form
    and is not empty. *)
Lemma join_trim (d t : string) :
  t <> EmptyString -> Str.mem Str.slash t = false ->
  Path.trim (Path.join d t) = Path.join d t /\ Path.join d t <> EmptyString.
Proof.
  intros Hne Ht. destruct (join_shape d t Ht) as [a ->].
  assert (Hn : a +:+ t <> EmptyString).
  { destruct a; [now rewrite app_Empty | discriminate]. }
  split; [|exact Hn].
  unfold Path.trim. rewrite (rstrip_slash_app_name _ _ Hne Ht).
  destruct (a +:+ t); [now elim Hn | reflexivity].
Qed.

Lemma length_rstrip_slash (d : string) :
  String.length (Path.rstrip_slash d) <= String.length d.
Proof.
  induction d as [|c d IH]; [reflexivity|].
  cbn [Path.rstrip_slash].
  destruct (Path.rstrip_slash d) as [|c' d'].
  - destruct (Ascii.eqb c Str.slash); cbn [String.length]; lia.
  - cbn [String.length] in *. lia.
Qed.

Lemma length_trim (d : string) :
  String.length (Path.trim d) <= String.length d.
Proof.
  unfold Path.trim. pose proof (length_rstrip_slash d) as H.
  destruct (Path.rstrip_slash d); [lia | exact H].
Qed.

Lemma length_join (d t : string) :
  t <> EmptyString -> Str.mem Str.slash t = false ->
  String.length d < String.length (Path.join d t).
Proof.
  intros Hne Ht. unfold Path.join.
  assert (0 < String.length t) by (destruct t; [contradiction | cbn; lia]).
  destruct (String.prefix "/" t) eqn:Hp.
  { destruct t as [|c t]; [discriminate|]. rewrite prefix_slash in Hp.
    cbn [Str.mem] in Ht. apply orb_false_iff in Ht as [Hc _].
    rewrite Ascii.eqb_sym in Hc. congruence. }
  destruct (_ || _); rewrite !length_app_str; lia.
Qed.

Lemma length_rsplit (p : string) :
  String.length (fst (Path.rsplit p)) + String.length (snd (Path.rsplit p))
  = String.length p.
Proof.
  induction p as [|c p IH]; [reflexivity|].
  cbn [Path.rsplit]. destruct (Path.rsplit p) as [h t]. cbn [fst snd] in IH.
  destruct h; [destruct (Ascii.eqb c Str.slash)|];
    cbn [fst snd String.length] in *; lia.
Qed.

(** A head and a tail are no longer than the path they are split from. *)
Lemma length_dirname (p : string) :
  String.length (Path.dirname p) + String.length (Path.basename p)
  <= String.length p.
Proof.
  unfold Path.dirname, Path.basename.
  pose proof (length_rsplit p). pose proof (length_trim (fst (Path.rsplit p))).
  lia.
Qed.

Lemma is_dot_not_empty (t : string) :
  Path.is_dot t = true -> 0 < String.length t.
Proof. destruct t; [discriminate | cbn; lia]. Qed.

Lemma split_name_shorter (name head tail : string) :
  Path.split_name name = (head, tail) -> tail <> EmptyString ->
  String.length head < String.length name.
Proof.
  unfold Path.split_name, Path.split.
  pose proof (length_dirname name) as H1.
  pose proof (length_dirname (Path.dirname name)) as H2.
  destruct (String.eqb_spec (Path.basename name) "") as [H0|Hne];
    intros [= <- <-] Ht.
  - assert (0 < String.length (Path.basename (Path.dirname name)))
      by (destruct (Path.basename (Path.dirname name));
          [contradiction | cbn; lia]).
    lia.
  - assert (0 < String.length (Path.basename name))
      by (destruct (Path.basename name); [contradiction | cbn; lia]).
    lia.
Qed.

(** ** The disk *)

(** The walk up from a path ends within the length of the path. *)
Lemma names_dir_fuel (ds : gset string) (n : nat) :
  forall p, String.length p <= n ->
    names_dir n ds p = names_dir (String.length p) ds p.
Proof.
  induction n as [n IH] using lt_wf_ind. intros p Hle.
  destruct p as [|c p]; [destruct n; reflexivity|].
  destruct n as [|n]; [cbn in Hle; lia|].
  cbn [String.length] in *. cbn [names_dir].
  set (q := Path.trim (String c p)).
  destruct (Path.is_dot (Path.basename q)) eqn:Hdot; [|reflexivity].
  assert (Hlen : String.length (Path.dirname q) <= String.length p).
  { pose proof (length_dirname q). pose proof (length_trim (String c p)) as Ht.
    fold q in Ht. cbn [String.length] in Ht.
    apply is_dot_not_empty in Hdot. lia. }
  rewrite (IH n ltac:(lia) (Path.dirname q)) by lia.
  rewrite (IH (String.length p) ltac:(lia) (Path.dirname q)) by lia.
  reflexivity.
Qed.

(** What [is_dir] asks of a path, with the walk up written as [is_dir] of
    the directory above. *)
Lemma is_dir_eq (w : world) (p : string) :
  is_dir w p
  = negb (String.eqb p "")
    && (String.eqb (Path.rstrip_slash p) ""
        || bool_decide (Path.trim p ∈ dirs w)
        || (Path.is_dot (Path.basename (Path.trim p))
            && (String.eqb (Path.dirname (Path.trim p)) ""
                || is_dir w (Path.dirname (Path.trim p))))).
Proof.
  unfold is_dir. destruct p as [|c p]; [reflexivity|].
  cbn [String.length names_dir].
  set (q := Path.trim (String c p)).
  destruct (Path.is_dot (Path.basename q)) eqn:Hdot; [|reflexivity].
  rewrite (names_dir_fuel (dirs w) (String.length p) (Path.dirname q));
    [reflexivity|].
  pose proof (length_dirname q). pose proof (length_trim (String c p)) as Ht.
  fold q in Ht. cbn [String.length] in Ht.
  apply is_dot_not_empty in Hdot. lia.
Qed.

Lemma trim_not_empty (d : string) :
  d <> EmptyString -> Path.trim d <> EmptyString.
Proof.
  intros Hd. unfold Path.trim.
  destruct (Path.rstrip_slash d); [exact Hd | discriminate].
Qed.

Lemma is_dir_trim (w : world) (d : string) :
  d <> EmptyString -> is_dir w (Path.trim d) = is_dir w d.
Proof.
  intros Hd. rewrite (is_dir_eq w (Path.trim d)), (is_dir_eq w d).
  rewrite trim_idem, rstrip_slash_trim.
  destruct (String.eqb_spec d "") as [|_]; [contradiction|].
  destruct (String.eqb_spec (Path.trim d) "") as [H0|_]; [|reflexivity].
  now apply trim_not_empty in H0.
Qed.

(** What [open] and [mkdir] find at a joined path: a directory on record,
    or [.] or [..] in an output directory that is there. *)
Lemma is_dir_join (w : world) (d t : string) :
  t <> EmptyString -> Str.mem Str.slash t = false ->
  is_dir w (Path.join d t)
  = bool_decide (Path.join d t ∈ dirs w)
    || (Path.is_dot t
        && (String.eqb (Path.trim d) "" || is_dir w (Path.trim d))).
Proof.
  intros Hne Ht. rewrite is_dir_eq.
  destruct (join_trim d t Hne Ht) as [Htrim Hnz].
  destruct (rsplit_join d t Ht) as [Hdn Hbase].
  rewrite Htrim, Hbase, Hdn.
  assert (Hr : Path.rstrip_slash (Path.join d t) = Path.join d t).
  { destruct (join_shape d t Ht) as [a ->].
    now apply rstrip_slash_app_name. }
  rewrite Hr.
  destruct (String.eqb_spec (Path.join d t) "") as [H0|_]; [now elim Hnz|].
  reflexivity.
Qed.

(** [mkdir] and [makedirs] leave the files alone, and come to an end. *)
Lemma os_mkdir_files (q : string) (w : world) :
  files (snd (os_mkdir q w)) = files w.
Proof.
  unfold os_mkdir. cbv zeta.
  repeat match goal with
         | |- context [if ?b then _ else _] => destruct b
         end; reflexivity.
Qed.

Lemma os_mkdir_finishes (q : string) (w : world) :
  fst (os_mkdir q w) <> Unfinished.
Proof.
  unfold os_mkdir. cbv zeta.
  repeat match goal with
         | |- context [if ?b then _ else _] => destruct b
         end; discriminate.
Qed.

Lemma makedirs_go_files (fuel : nat) :
  forall name w, files (snd (makedirs_go fuel name w)) = files w.
Proof.
  induction fuel as [|fuel IH]; intros name w; cbn [makedirs_go];
    destruct (Path.split_name name) as [head tail];
    unfold bind, os_path_exists, ret, unfinished;
    destruct (negb (String.eqb head "") && negb (String.eqb tail ""));
    try apply os_mkdir_files;
    destruct (negb (refused head) && (is_dir w head || is_file w head));
    try apply os_mkdir_files; try reflexivity.
  unfold except_file_exists. specialize (IH head w).
  destruct (makedirs_go fuel head w) as [[[]|e|] w1]; cbn [snd] in *;
    try exact IH.
  - destruct (String.eqb tail "."); [exact IH|].
    now rewrite os_mkdir_files.
  - destruct (exn_cls e); cbn [snd]; try exact IH.
    destruct (String.eqb tail "."); [exact IH|].
    now rewrite os_mkdir_files.
Qed.

Lemma makedirs_go_finishes (fuel : nat) :
  forall name w, String.length name <= fuel ->
    fst (makedirs_go fuel name w) <> Unfinished.
Proof.
  induction fuel as [|fuel IH]; intros name w Hlen; cbn [makedirs_go];
    pose proof (split_name_shorter name) as Hs;
    destruct (Path.split_name name) as [head tail];
    specialize (Hs head tail eq_refl);
    unfold bind, os_path_exists, ret, unfinished;
    destruct (String.eqb_spec head "") as [|Hh]; cbn [negb andb];
    try apply os_mkdir_finishes;
    destruct (String.eqb_spec tail "") as [|Ht]; cbn [negb];
    try apply os_mkdir_finishes;
    specialize (Hs Ht);
    destruct (negb (refused head) && (is_dir w head || is_file w head));
    try apply os_mkdir_finishes.
  - lia.
  - unfold except_file_exists. specialize (IH head w ltac:(lia)).
    destruct (makedirs_go fuel head w) as [[[]|e|] w1]; cbn [fst] in *;
      try contradiction.
    + destruct (String.eqb tail "."); [discriminate|].
      apply os_mkdir_finishes.
    + destruct (exn_cls e); try discriminate.
      destruct (String.eqb tail "."); [discriminate|].
      apply os_mkdir_finishes.
Qed.

Lemma os_makedirs_files (name : string) (w : world) :
  files (snd (os_makedirs name w)) = files w.
Proof. apply makedirs_go_files. Qed.

Lemma os_makedirs_finishes (name : string) (w : world) :
  fst (os_makedirs name w) <> Unfinished.
Proof. now apply makedirs_go_finishes. Qed.

(** On [attachments], the one directory the script asks for, [makedirs]
    is one [mkdir]. *)
Lemma makedirs_attachments (w : world) :
  os_makedirs "attachments" w
  = if is_dir w "attachments" || is_file w "attachments"
    then (Raise (os_error FileExistsError "17" "File exists" "attachments"), w)
    else (Ok tt, set_dirs (dirs w ∪ {["attachments"]}) w).
Proof. reflexivity. Qed.

Lemma exists_attachments (w : world) :
  os_path_exists "attachments" w
  = (Ok (is_dir w "attachments" || is_file w "attachments"), w).
Proof. reflexivity. Qed.

Section Persister.

Context (E : externals).

(** Writing after opening leaves exactly the bytes written. *)
Lemma open_then_write (p : string) (data : bytes) (m : gmap string bytes) :
  <[p := default [] (<[p := []]> m !! p) ++ data]> (<[p := []]> m)
  = <[p := data]> m.
Proof. rewrite lookup_insert_eq. cbn. apply insert_insert_eq. Qed.

(** Every run of the persister on a string either writes the joined
    path, and then the name is a proper one, or leaves all files as
    they were. *)
Lemma save_attachment_cases (name : string) (data : bytes)
    (output_dir : string) (w : world) :
  let cleaned := Str.replace name "/" "" in
  let filepath := Path.join output_dir cleaned in
  let r := save_attachment_locally E (JStr name) data output_dir w in
  (fst r = Ok tt
   /\ files (snd r) = <[filepath := data]> (files w)
   /\ cleaned <> EmptyString /\ Path.is_dot cleaned = false)
  \/ ((exists e, fst r = Raise e) /\ files (snd r) = files w).
Proof.
  intros cleaned filepath r. subst r.
  pose proof (replace_slash_no_slash name) as Hns. fold cleaned in Hns.
  destruct (rsplit_join output_dir cleaned Hns) as [Hdn Hbase].
  fold filepath in Hdn, Hbase.
  unfold save_attachment_locally, bind, os_path_exists, lift, str_method.
  fold cleaned. fold filepath.
  set (present := negb (refused output_dir) && _).
  assert (Hopen : forall w1, files w1 = files w ->
    let r := bind (open_wb filepath)
               (fun _ => bind (file_write filepath data)
                  (fun _ => print ("Saved attachment: " +:+ filepath))) w1 in
    (fst r = Ok tt
     /\ files (snd r) = <[filepath := data]> (files w)
     /\ cleaned <> EmptyString /\ Path.is_dot cleaned = false)
    \/ ((exists e, fst r = Raise e) /\ files (snd r) = files w)).
  { intros w1 Hf. unfold bind, open_wb. cbv zeta. rewrite Hbase.
    destruct (Str.mem Path.nul filepath).
    { right. split; [eexists; reflexivity | exact Hf]. }
    destruct (Path.PATH_MAX <=? Path.bytes_len filepath)%nat.
    { right. split; [eexists; reflexivity | exact Hf]. }
    destruct (String.eqb filepath "").
    { right. split; [eexists; reflexivity | exact Hf]. }
    destruct (String.eqb_spec cleaned "") as [H0|Hne].
    { destruct (negb (_ || _));
        right; (split; [eexists; reflexivity | exact Hf]). }
    pose proof (proj1 (join_trim output_dir cleaned Hne Hns)) as Htrim.
    fold filepath in Htrim. rewrite Htrim, Hdn.
    destruct (String.eqb (Path.trim output_dir) ""
              || is_dir w1 (Path.trim output_dir)) eqn:Hpar; cbn [negb].
    2: { right. split; [eexists; reflexivity | exact Hf]. }
    destruct (Path.NAME_MAX <? Path.bytes_len cleaned)%nat.
    { right. split; [eexists; reflexivity | exact Hf]. }
    pose proof (is_dir_join w1 output_dir cleaned Hne Hns) as Hd.
    fold filepath in Hd. rewrite Hd, Hpar, andb_true_r.
    destruct (bool_decide (filepath ∈ dirs w1)); cbn [orb].
    { right. split; [eexists; reflexivity | exact Hf]. }
    destruct (Path.is_dot cleaned) eqn:Hdot.
    { right. split; [eexists; reflexivity | exact Hf]. }
    left. cbn. rewrite Hf. rewrite open_then_write. auto. }
  destruct present; cbn [negb].
  - apply (Hopen w eq_refl).
  - pose proof (os_makedirs_files output_dir w) as Hfiles.
    pose proof (os_makedirs_finishes output_dir w) as Hfin.
    destruct (os_makedirs output_dir w) as [[[]|e|] w1]; cbn [fst snd] in *.
    + apply (Hopen w1 Hfiles).
    + right. split; [eexists; reflexivity | exact Hfiles].
    + now elim Hfin.
Qed.

(** C1: the name under which the persister saves has no path separator
    left, so the path it joins lies directly in the output directory;
    and a run of the persister changes no file but that one, which it
    does not name with the empty name, [.] or [..]. *)
Theorem sanitized_name_stays_in_output_dir (name : string) (data : bytes)
    (output_dir : string) (w : world) :
  let cleaned := Str.replace name "/" "" in
  let filepath := Path.join output_dir cleaned in
  let w' := snd (save_attachment_locally E (JStr name) data output_dir w) in
  Str.mem Str.slash cleaned = false
  /\ Path.basename filepath = cleaned
  /\ Path.dirname filepath = Path.trim output_dir
  /\ forall p, files w' !! p <> files w !! p ->
       p = filepath /\ cleaned <> EmptyString /\ Path.is_dot cleaned = false.
Proof.
  intros cleaned filepath w'.
  pose proof (replace_slash_no_slash name) as Hns. fold cleaned in Hns.
  destruct (rsplit_join output_dir cleaned Hns) as [Hdn Hbase].
  split; [exact Hns|]. split; [exact Hbase|]. split; [exact Hdn|].
  intros p Hp.
  destruct (save_attachment_cases name data output_dir w)
    as [(_ & Hf & Hne & Hdot)|[_ Hf]].
  - split; [|split; assumption].
    destruct (decide (p = filepath)) as [|Hpf]; [assumption|].
    exfalso. apply Hp. unfold w'. rewrite Hf.
    apply lookup_insert_ne. intros Heq. apply Hpf. symmetry. exact Heq.
  - exfalso. apply Hp. unfold w'. now rewrite Hf.
Qed.

(** C3: the file the persister writes holds exactly the bytes it was
    given: after a run of the persister that returns, the file at the
    joined path holds those bytes, none added, dropped or changed. *)
Theorem persister_writes_bytes_verbatim (name : string) (B : bytes)
    (output_dir : string) (w : world) :
  let cleaned := Str.replace name "/" "" in
  let filepath := Path.join output_dir cleaned in
  let r := save_attachment_locally E (JStr name) B output_dir w in
  fst r = Ok tt -> files (snd r) !! filepath = Some B.
Proof.
  intros cleaned filepath r Hr.
  destruct (save_attachment_cases name B output_dir w)
    as [(_ & Hf & _)|[[e He] _]].
  - unfold r. rewrite Hf. apply lookup_insert_eq.
  - unfold r in Hr. rewrite He in Hr. discriminate.
Qed.

End Persister.

Section Fetching.

Context (E : externals).

(** One turn of the loop on a page. *)
Lemma search_loop_step (fuel : nat) (tok : string) (page_token page : json)
    (messages : list json) (resp : response) (w : world) :
  server E (sent w) (search_request E tok page_token) = Ok resp ->
  json_of resp = Ok page ->
  is_page page ->
  search_loop E (S fuel) tok page_token messages w
  = if has_token page
    then search_loop E fuel tok (next_token page)
           (messages ++ page_messages page)
           (log_request (search_request E tok page_token) w)
    else (Ok (messages ++ page_messages page),
          log_request (search_request E tok page_token) w).
Proof.
  intros Hsrv Hjson (fields & -> & Hmsgs).
  cbn [search_loop].
  unfold bind, requests_get, lift, ret, py_in, py_getitem, py_iter.
  fold (search_request E tok page_token). rewrite Hsrv. cbv beta iota.
  rewrite Hjson. cbv beta iota.
  cbn [has_token next_token page_messages].
  destruct (lookup_field "nextPageToken" fields) as [t|] eqn:Ht;
    destruct Hmsgs as [Hm|[items Hm]]; rewrite Hm; cbv beta iota.
  all: rewrite ?app_nil_r; reflexivity.
Qed.

Lemma log_requests_cons (rq : request) (rqs : list request) (w : world) :
  log_requests (rq :: rqs) w = log_requests rqs (log_request rq w).
Proof.
  unfold log_requests, log_request. cbn [sent files dirs stdout stdin].
  now rewrite <- app_assoc.
Qed.

Lemma search_loop_pages (pages : list json) :
  forall (last : json) (fuel : nat) (tok : string) (page_token : json)
         (messages : list json) (w : world),
    serves E tok (sent w) page_token (pages ++ [last]) ->
    Forall is_page (pages ++ [last]) ->
    Forall (fun page => has_token page = true) pages ->
    has_token last = false ->
    (length pages < fuel ->
     search_loop E fuel tok page_token messages w
     = (Ok (messages ++ concat (map page_messages (pages ++ [last]))),
        log_requests (page_requests E tok page_token (pages ++ [last])) w))
    /\ (fuel <= length pages ->
        fst (search_loop E fuel tok page_token messages w) = Unfinished).
Proof.
  induction pages as [|page pages IH];
    intros last fuel tok page_token messages w Hsrv Hpages Htok Hlast.
  - cbn [app] in Hsrv, Hpages. destruct Hsrv as [(resp & Hr & Hj) _].
    apply Forall_cons in Hpages as [Hp _].
    split; intros Hfuel; cbn [length] in Hfuel.
    + destruct fuel as [|fuel]; [lia|].
      rewrite (search_loop_step _ _ _ _ _ _ _ Hr Hj Hp), Hlast.
      cbn. rewrite app_nil_r. reflexivity.
    + assert (fuel = 0) as -> by lia. reflexivity.
  - cbn [app] in Hsrv, Hpages.
    destruct Hsrv as [(resp & Hr & Hj) Hsrv].
    apply Forall_cons in Hpages as [Hp Hpages].
    apply Forall_cons in Htok as [Ht Htok].
    split; intros Hfuel; cbn [length] in Hfuel.
    + destruct fuel as [|fuel]; [lia|].
      rewrite (search_loop_step _ _ _ _ _ _ _ Hr Hj Hp), Ht.
      destruct (IH last fuel tok (next_token page)
                  (messages ++ page_messages page)
                  (log_request (search_request E tok page_token) w)
                  Hsrv Hpages Htok Hlast) as [Hrun _].
      rewrite Hrun by lia.
      cbn [app map concat page_requests].
      now rewrite log_requests_cons, <- app_assoc.
    + destruct fuel as [|fuel]; [reflexivity|].
      rewrite (search_loop_step _ _ _ _ _ _ _ Hr Hj Hp), Ht.
      apply (IH last fuel tok (next_token page)
               (messages ++ page_messages page)
               (log_request (search_request E tok page_token) w)
               Hsrv Hpages Htok Hlast).
      lia.
Qed.

(** C2: when the server answers the search requests with a finite
    sequence of pages of which the last is the first without a
    continuation token, the pagination loop leaves after that page and
    not before, having asked once per page, and the messages it has
    gathered are the pages' message arrays put end to end in the order
    the pages came. *)
Theorem pagination_collects_all_pages (pages : list json) (last : json)
    (fuel : nat) (access_token : string) (w : world) :
  serves E access_token (sent w) JNull (pages ++ [last]) ->
  Forall is_page (pages ++ [last]) ->
  Forall (fun page => has_token page = true) pages ->
  has_token last = false ->
  (length pages < fuel ->
   search_loop E fuel access_token JNull [] w
   = (Ok (concat (map page_messages (pages ++ [last]))),
      log_requests (page_requests E access_token JNull (pages ++ [last])) w))
  /\ (fuel <= length pages ->
      fst (search_loop E fuel access_token JNull [] w) = Unfinished)
  /\ length (page_requests E access_token JNull (pages ++ [last]))
     = length pages + 1.
Proof.
  intros Hsrv Hpages Htok Hlast.
  destruct (search_loop_pages pages last fuel access_token JNull [] w
              Hsrv Hpages Htok Hlast) as [Hrun Hout].
  split; [exact Hrun|]. split; [exact Hout|].
  clear. generalize JNull. induction pages as [|page pages IH]; intros t.
  - reflexivity.
  - cbn [app page_requests length]. now rewrite IH.
Qed.

End Fetching.

Section Run.

Context (E : externals).

(** C5: when the user-info endpoint answers with a status other than
    200, the fetch raises the failure with the response text, and the
    user-info request is the only request that went out: no search
    request is sent, no file is touched, nothing is printed. *)
Theorem non_200_aborts_before_search (fuel : nat) (access_token : string)
    (w : world) (user_info : response) :
  server E (sent w) (mk_request userinfo_url ("Bearer " +:+ access_token))
  = Ok user_info ->
  status_code user_info <> 200%Z ->
  fetch_and_save_attachments E fuel access_token w
  = (Raise (mk_exn Exception
              ("Failed to fetch user info: " +:+ text user_info)),
     log_request (mk_request userinfo_url ("Bearer " +:+ access_token)) w).
Proof.
  intros Hsrv Hstatus.
  unfold fetch_and_save_attachments, bind at 1, requests_get.
  rewrite Hsrv. cbv beta iota.
  apply Z.eqb_neq in Hstatus. rewrite Hstatus. reflexivity.
Qed.

(** C4: a part with an attachment identifier whose attachment document
    has no ["data"] field is passed over: the loop goes on with the
    next part from the same counter, and all that happened is the
    request for the attachment (no file written, no text extracted,
    nothing printed, no exception). *)
Theorem part_without_data_is_skipped (access_token : string)
    (message_id attachment_id : json)
    (fields body_fields document : list (string * json))
    (rest : list json) (attachment_count : nat)
    (attachment_resp : response) (w : world) :
  lookup_field "body" fields = Some (JObj body_fields) ->
  lookup_field "attachmentId" body_fields = Some attachment_id ->
  server E (sent w) (attachment_request E access_token message_id attachment_id)
  = Ok attachment_resp ->
  json_of attachment_resp = Ok (JObj document) ->
  lookup_field "data" document = None ->
  process_parts E access_token message_id (JObj fields :: rest)
    attachment_count w
  = process_parts E access_token message_id rest attachment_count
      (log_request
         (attachment_request E access_token message_id attachment_id) w).
Proof.
  intros Hbody Hid Hsrv Hjson Hdata.
  cbn [process_parts]. unfold bind at 1.
  unfold process_part, bind, lift, has_nested, py_in, py_getitem, py_get,
    requests_get.
  rewrite Hbody. cbv beta iota. rewrite Hid. cbv beta iota.
  rewrite !bool_decide_eq_true_2 by eauto. cbv beta iota.
  fold (attachment_request E access_token message_id attachment_id).
  rewrite Hsrv. cbv beta iota. rewrite Hjson. cbv beta iota.
  rewrite Hdata. reflexivity.
Qed.

(** C8: a part with an attachment identifier and no ["filename"] field
    is saved and read under the name [untitled.txt]: once the
    attachment's bytes are there, the run goes on as the persister and
    the text extractor called with that name. *)
Theorem missing_filename_defaults_to_untitled (access_token : string)
    (message_id attachment_id data_base64 : json)
    (fields body_fields document : list (string * json))
    (attachment_count : nat) (attachment_resp : response)
    (attachment_content : bytes) (w : world) :
  lookup_field "filename" fields = None ->
  lookup_field "body" fields = Some (JObj body_fields) ->
  lookup_field "attachmentId" body_fields = Some attachment_id ->
  server E (sent w) (attachment_request E access_token message_id attachment_id)
  = Ok attachment_resp ->
  json_of attachment_resp = Ok (JObj document) ->
  lookup_field "data" document = Some data_base64 ->
  truthy data_base64 = true ->
  urlsafe_b64decode E (B64Value data_base64) = Ok attachment_content ->
  process_part E access_token message_id (JObj fields) attachment_count w
  = (save_attachment_locally E (JStr "untitled.txt") attachment_content
       "attachments" ;;;
     text <- lift (extract_text_from_attachment E (JStr "untitled.txt")
                     attachment_content) ;;
     print "Extracted text from untitled.txt:" ;;;
     print text ;;;
     ret (attachment_count + 1))
      (log_request
         (attachment_request E access_token message_id attachment_id) w).
Proof.
  intros Hname Hbody Hid Hsrv Hjson Hdata Htruthy Hdecode.
  unfold process_part, bind, lift, has_nested, py_in, py_getitem, py_get,
    requests_get.
  rewrite Hbody. cbv beta iota. rewrite Hid. cbv beta iota.
  rewrite !bool_decide_eq_true_2 by eauto. cbv beta iota.
  fold (attachment_request E access_token message_id attachment_id).
  rewrite Hsrv. cbv beta iota. rewrite Hjson. cbv beta iota.
  rewrite Hdata, Hname. cbn [from_option id]. rewrite Htruthy. cbn [negb].
  rewrite Hdecode. reflexivity.
Qed.

(** What [main] does once the two prompts are answered: the token line
    decides, the brand line is gone. *)
Lemma main_after_prompts (fuel : nat) (typed_token typed_brand : string)
    (rest : list string) (w : world) :
  stdin w = typed_token :: typed_brand :: rest ->
  main E fuel w
  = (if String.eqb (Str.strip typed_token) ""
     then print "No access token provided. Exiting."
     else try_except
            (fetch_and_save_attachments E fuel (Str.strip typed_token))
            (fun e => print ("An error occurred: " +:+ exn_str e)))
      (mk_world (sent w) (files w) (dirs w)
         (stdout w ++ ["Enter your Google OAuth2 Access Token: ";
                       "Enter the brand name: "])
         rest).
Proof.
  intros Hin. unfold main, bind at 1, input at 1. rewrite Hin.
  unfold bind at 1, input at 1.
  unfold set_stdin, write_stdout.
  cbn [stdin sent files dirs stdout].
  now rewrite <- app_assoc.
Qed.

(** C9: the brand name typed at the second prompt changes nothing: two
    runs that differ in that line alone end with the same outcome in
    the same world (the same requests sent, files and directories,
    console output and input left). *)
Theorem brand_name_is_dead (fuel : nat) (typed_token brand1 brand2 : string)
    (rest : list string) (w : world) :
  main E fuel (set_stdin (typed_token :: brand1 :: rest) w)
  = main E fuel (set_stdin (typed_token :: brand2 :: rest) w).
Proof.
  rewrite (main_after_prompts fuel typed_token brand1 rest) by reflexivity.
  rewrite (main_after_prompts fuel typed_token brand2 rest) by reflexivity.
  reflexivity.
Qed.

(** C10: when both prompts are answered and the token typed is empty
    once stripped, the entry point prints its message and returns; all
    it did is write the two prompts and the message and read the two
    lines, so no request went out and no file or directory was made. *)
Theorem empty_token_exits_at_once (fuel : nat) (typed_token typed_brand : string)
    (rest : list string) (w : world) :
  stdin w = typed_token :: typed_brand :: rest ->
  Str.strip typed_token = EmptyString ->
  main E fuel w
  = (Ok tt,
     mk_world (sent w) (files w) (dirs w)
       (stdout w ++ ["Enter your Google OAuth2 Access Token: ";
                     "Enter the brand name: ";
                     "No access token provided. Exiting." +:+ Str.nl])
       rest).
Proof.
  intros Hin Hempty.
  rewrite (main_after_prompts fuel typed_token typed_brand rest w Hin).
  rewrite Hempty. cbn [String.eqb]. unfold print, write_stdout.
  cbn [stdin sent files dirs stdout].
  now rewrite <- app_assoc.
Qed.

End Run.

(** ** The script on the small mailbox *)

(** A whole session, from the prompts to the summary: the token is
    stripped, the brand name is read and dropped, the two pages are
    fetched, the attachment with data is saved under its cleaned name and
    the one without data is passed over. *)
Example session_run :
  let r := main (Demo.env Demo.session) 10
             (set_stdin [" tok "; "acme"] Demo.fresh) in
  fst r = Ok tt
  /\ map url (sent (snd r))
     = [userinfo_url;
        gmail_url (Demo.env Demo.session) JNull;
        gmail_url (Demo.env Demo.session) (JStr "t2");
        messages_url +:+ "/m1";
        messages_url +:+ "/m1/attachments/att1";
        messages_url +:+ "/m2";
        messages_url +:+ "/m2/attachments/att2"]
  /\ map_to_list (files (snd r)) = [("attachments/..notes.txt", Demo.hi)]
  /\ elements (dirs (snd r)) = ["attachments"]
  /\ stdout (snd r)
     = ["Enter your Google OAuth2 Access Token: ";
        "Enter the brand name: ";
        "Total messages found: 2" +:+ Str.nl;
        "Saved attachment: attachments/..notes.txt" +:+ Str.nl;
        "Extracted text from ../notes.txt:" +:+ Str.nl;
        "Unsupported or no text extraction for this file type." +:+ Str.nl;
        "Total attachments processed: 1" +:+ Str.nl].
Proof. vm_compute. repeat split; reflexivity. Qed.

(** A name that tries to climb out of the output directory. *)
Lemma sanitized_name_witness :
  Str.mem Str.slash (Str.replace "../../etc/passwd" "/" "") = false
  /\ Path.basename (Path.join "attachments" (Str.replace "../../etc/passwd" "/" ""))
     = "....etcpasswd"
  /\ Path.dirname (Path.join "attachments" (Str.replace "../../etc/passwd" "/" ""))
     = "attachments".
Proof.
  destruct (sanitized_name_stays_in_output_dir (Demo.env [])
              "../../etc/passwd" Demo.hi "attachments" Demo.fresh)
    as (H1 & H2 & H3 & _).
  split; [exact H1|]. split; [exact H2 | exact H3].
Defined.

(** Three pages, the second without messages: three requests, three messages; two turns of fuel are not enough. *)
Lemma pagination_witness :
  let E := Demo.env [Demo.ok Demo.page1; Demo.ok Demo.page2; Demo.ok Demo.page3] in
  search_loop E 5 "tok" JNull [] Demo.fresh
  = (Ok [Demo.message "m1"; Demo.message "m2"; Demo.message "m3"],
     log_requests
       [search_request E "tok" JNull;
        search_request E "tok" (JStr "t2");
        search_request E "tok" (JStr "t3")] Demo.fresh)
  /\ fst (search_loop E 2 "tok" JNull [] Demo.fresh) = Unfinished.
Proof.
  intros E.
  assert (Hsrv : serves E "tok" (sent Demo.fresh) JNull
                   ([Demo.page1; Demo.page2] ++ [Demo.page3])).
  { split; [exists (Demo.ok Demo.page1); split; reflexivity|].
    split; [exists (Demo.ok Demo.page2); split; reflexivity|].
    split; [exists (Demo.ok Demo.page3); split; reflexivity|].
    exact I. }
  assert (Hpages : Forall is_page ([Demo.page1; Demo.page2] ++ [Demo.page3])).
  { repeat constructor.
    - eexists; split; [reflexivity|]. right. eexists. reflexivity.
    - eexists; split; [reflexivity|]. left. reflexivity.
    - eexists; split; [reflexivity|]. right. eexists. reflexivity. }
  assert (Htok : Forall (fun page => has_token page = true)
                   [Demo.page1; Demo.page2]).
  { repeat constructor. }
  split.
  - apply (pagination_collects_all_pages E [Demo.page1; Demo.page2]
             Demo.page3 5 "tok" Demo.fresh Hsrv Hpages Htok eq_refl).
    cbn. lia.
  - apply (pagination_collects_all_pages E [Demo.page1; Demo.page2]
             Demo.page3 2 "tok" Demo.fresh Hsrv Hpages Htok eq_refl).
    cbn. lia.
Defined.

(** A first save into a directory that is not there yet. *)
Lemma persister_witness :
  let r := save_attachment_locally (Demo.env []) (JStr "a/b.pdf") Demo.hi
             "attachments" Demo.fresh in
  fst r = Ok tt /\ files (snd r) !! "attachments/ab.pdf" = Some Demo.hi.
Proof.
  split; [vm_compute; reflexivity|].
  apply (persister_writes_bytes_verbatim (Demo.env []) "a/b.pdf" Demo.hi
           "attachments" Demo.fresh).
  vm_compute. reflexivity.
Defined.

(** An attachment document with a size and no data. *)
Lemma part_without_data_witness :
  let E := Demo.env [Demo.ok Demo.without_data] in
  process_parts E "tok" (JStr "m2") [Demo.unnamed_part] 0 Demo.fresh
  = (Ok 0,
     log_request (attachment_request E "tok" (JStr "m2") (JStr "att2"))
       Demo.fresh).
Proof.
  exact (part_without_data_is_skipped
           (Demo.env [Demo.ok Demo.without_data]) "tok" (JStr "m2")
           (JStr "att2")
           [("body", JObj [("attachmentId", JStr "att2")])]
           [("attachmentId", JStr "att2")]
           [("size", JInt 0)]
           [] 0 (Demo.ok Demo.without_data) Demo.fresh
           eq_refl eq_refl eq_refl eq_refl eq_refl).
Defined.

(** An expired token: status 401. *)
Lemma non_200_witness :
  let E := Demo.env [mk_response 401 "Invalid Credentials" (Ok JNull)] in
  fetch_and_save_attachments E 3 "expired" Demo.fresh
  = (Raise (mk_exn Exception "Failed to fetch user info: Invalid Credentials"),
     log_request (mk_request userinfo_url "Bearer expired") Demo.fresh).
Proof.
  refine (non_200_aborts_before_search
            (Demo.env [mk_response 401 "Invalid Credentials" (Ok JNull)])
            3 "expired" Demo.fresh
            (mk_response 401 "Invalid Credentials" (Ok JNull)) eq_refl _).
  discriminate.
Defined.

(** A picture, with an upper-case extension. *)
Lemma unsupported_extension_witness :
  extract_text_from_attachment (Demo.env []) (JStr "photo.PNG") Demo.hi
  = Ok "Unsupported or no text extraction for this file type.".
Proof.
  apply unsupported_extension_gives_sentinel.
  - intros H. apply endswith_lower_iff in H; [discriminate | reflexivity].
  - intros H. apply endswith_lower_iff in H; [discriminate | reflexivity].
Defined.

(** The document with paragraphs A and B. *)
Lemma docx_witness :
  extract_text_from_docx (Demo.env []) Demo.hi
  = Ok ("A" +:+ Str.nl +:+ "B" +:+ Str.nl).
Proof.
  exact (proj1 (docx_text_is_paragraphs_with_newlines (Demo.env []) Demo.hi)
           eq_refl).
Defined.

(** A part without a file name, whose attachment decodes to two bytes. *)
Lemma missing_filename_witness :
  let E := Demo.env [Demo.ok Demo.with_data] in
  let r := process_part E "tok" (JStr "m2") Demo.unnamed_part 0 Demo.fresh in
  fst r = Ok 1
  /\ files (snd r) !! "attachments/untitled.txt" = Some Demo.hi
  /\ stdout (snd r)
     = ["Saved attachment: attachments/untitled.txt" +:+ Str.nl;
        "Extracted text from untitled.txt:" +:+ Str.nl;
        "Unsupported or no text extraction for this file type." +:+ Str.nl].
Proof.
  intros E r. subst r.
  pose proof (missing_filename_defaults_to_untitled E "tok" (JStr "m2")
                (JStr "att2") (JStr "SGk=")
                [("body", JObj [("attachmentId", JStr "att2")])]
                [("attachmentId", JStr "att2")]
                [("size", JInt 2); ("data", JStr "SGk=")] 0
                (Demo.ok Demo.with_data) Demo.hi Demo.fresh
                eq_refl eq_refl eq_refl eq_refl eq_refl eq_refl eq_refl eq_refl)
    as H.
  unfold Demo.unnamed_part. rewrite H.
  vm_compute. repeat split; reflexivity.
Defined.

(** Three spaces typed as the token. *)
Lemma empty_token_witness :
  main (Demo.env []) 3 (set_stdin ["   "; "acme"] Demo.fresh)
  = (Ok tt,
     mk_world [] ∅ ∅
       ["Enter your Google OAuth2 Access Token: ";
        "Enter the brand name: ";
        "No access token provided. Exiting." +:+ Str.nl]
       []).
Proof.
  exact (empty_token_exits_at_once (Demo.env []) 3 "   " "acme" []
           (set_stdin ["   "; "acme"] Demo.fresh) eq_refl eq_refl).
Defined.

(** C10 without its second line typed: a blank token, and the input ends
    there.  The entry point asks for the brand name before it looks at
    the token, so the run ends with [EOFError] at the second prompt; the
    two prompts are all it printed, its message is not among them. *)
Lemma blank_token_then_end_of_input :
  Str.strip "   " = EmptyString
  /\ fst (main (Demo.env []) 3 (set_stdin ["   "] Demo.fresh))
     = Raise (mk_exn EOFError "EOF when reading a line")
  /\ stdout (snd (main (Demo.env []) 3 (set_stdin ["   "] Demo.fresh)))
     = ["Enter your Google OAuth2 Access Token: "; "Enter the brand name: "].
Proof. vm_compute. repeat split. Qed.

(** * Beyond the claims *)

(** ** What a run may change *)

Lemma frame_refl (tok : string) (w : world) : frame tok w w.
Proof.
  split.
  - exists []. split; [now rewrite app_nil_r | constructor].
  - exists []. now rewrite app_nil_r.
  - reflexivity.
  - apply union_subseteq_l.
  - intros p Hp. now elim Hp.
Qed.

Lemma frame_trans (tok : string) (w1 w2 w3 : world) :
  frame tok w1 w2 -> frame tok w2 w3 -> frame tok w1 w3.
Proof.
  intros [[l1 [Hs1 Ha1]] [o1 Ho1] Hi1 Hd1 Hf1] [[l2 [Hs2 Ha2]] [o2 Ho2] Hi2 Hd2 Hf2].
  split.
  - exists (l1 ++ l2). split.
    + rewrite Hs2, Hs1. now rewrite app_assoc.
    + apply Forall_app. now split.
  - exists (o1 ++ o2). rewrite Ho2, Ho1. now rewrite app_assoc.
  - congruence.
  - etrans; [exact Hd2|].
    apply union_least; [exact Hd1 | apply union_subseteq_r].
  - intros p Hp.
    destruct (decide (files w2 !! p = files w1 !! p)) as [Heq|Hne].
    + apply Hf2. congruence.
    + now apply Hf1.
Qed.

Lemma keeps_ret (tok : string) {A} (a : A) : keeps tok (ret a).
Proof. intros w. apply frame_refl. Qed.

Lemma keeps_lift (tok : string) {A} (o : outcome A) : keeps tok (lift o).
Proof. intros w. apply frame_refl. Qed.

Lemma keeps_raise (tok : string) {A} (e : exn) : keeps tok (raise (A:=A) e).
Proof. intros w. apply frame_refl. Qed.

Lemma keeps_unfinished (tok : string) {A} : keeps tok (unfinished (A:=A)).
Proof. intros w. apply frame_refl. Qed.

Lemma keeps_bind (tok : string) {A B} (m : M A) (k : A -> M B) :
  keeps tok m -> (forall a, keeps tok (k a)) -> keeps tok (bind m k).
Proof.
  intros Hm Hk w. unfold bind. specialize (Hm w).
  destruct (m w) as [[a|e|] w']; cbn [snd] in *; [|exact Hm|exact Hm].
  eapply frame_trans; [exact Hm | apply Hk].
Qed.

(** After a pure step only the values it can give matter. *)
Lemma keeps_bind_lift (tok : string) {A B} (o : outcome A) (k : A -> M B) :
  (forall a, o = Ok a -> keeps tok (k a)) -> keeps tok (bind (lift o) k).
Proof.
  intros Hk w. unfold bind, lift.
  destruct o as [a|e|]; cbn [snd]; [|apply frame_refl|apply frame_refl].
  now apply Hk.
Qed.

Lemma keeps_if (tok : string) {A} (b : bool) (m1 m2 : M A) :
  keeps tok m1 -> keeps tok m2 -> keeps tok (if b then m1 else m2).
Proof. now destruct b. Qed.

Lemma keeps_print (tok s : string) : keeps tok (print s).
Proof.
  intros w. split; cbn; try reflexivity.
  - exists []. split; [now rewrite app_nil_r | constructor].
  - now eexists.
  - apply union_subseteq_l.
  - intros p Hp. now elim Hp.
Qed.

Lemma keeps_os_path_exists (tok p : string) : keeps tok (os_path_exists p).
Proof. intros w. apply frame_refl. Qed.

Lemma keeps_makedirs_attachments (tok : string) :
  keeps tok (os_makedirs "attachments").
Proof.
  intros w. rewrite makedirs_attachments.
  destruct (is_dir w "attachments" || _); [apply frame_refl|].
  split; cbn; try reflexivity.
  - exists []. split; [now rewrite app_nil_r | constructor].
  - exists []. now rewrite app_nil_r.
  - intros p Hp. now elim Hp.
Qed.

Lemma frame_set_files (tok : string) (w : world) (p : string) (b : bytes) :
  in_attachments p -> frame tok w (set_files (<[p := b]> (files w)) w).
Proof.
  intros Hp. split; cbn; try reflexivity.
  - exists []. split; [now rewrite app_nil_r | constructor].
  - exists []. now rewrite app_nil_r.
  - apply union_subseteq_l.
  - intros q Hq. destruct (decide (p = q)) as [<-|Hne]; [exact Hp|].
    rewrite lookup_insert_ne in Hq by exact Hne. now elim Hq.
Qed.

Lemma keeps_open_wb (tok p : string) : in_attachments p -> keeps tok (open_wb p).
Proof.
  intros Hp w. unfold open_wb. cbv zeta.
  repeat match goal with
         | |- context [if ?b then _ else _] => destruct b
         end;
    try apply frame_refl.
  now apply frame_set_files.
Qed.

Lemma keeps_file_write (tok p : string) (data : bytes) :
  in_attachments p -> keeps tok (file_write p data).
Proof. intros Hp w. now apply frame_set_files. Qed.

Lemma join_in_attachments (name : string) :
  in_attachments (Path.join "attachments" (Str.replace name "/" "")).
Proof.
  destruct (rsplit_join "attachments" _ (replace_slash_no_slash name))
    as [Hd Hb].
  split; [exact Hd|]. rewrite Hb. apply replace_slash_no_slash.
Qed.

Section Frame.

Context (E : externals).

Lemma keeps_requests_get (tok u : string) : keeps tok (requests_get E u tok).
Proof.
  intros w. split; cbn; try reflexivity.
  - eexists. split; [reflexivity|]. now repeat constructor.
  - exists []. now rewrite app_nil_r.
  - apply union_subseteq_l.
  - intros p Hp. now elim Hp.
Qed.

Lemma keeps_save_attachment (tok : string) (filename : json) (data : bytes) :
  keeps tok (save_attachment_locally E filename data "attachments").
Proof.
  unfold save_attachment_locally.
  apply keeps_bind; [apply keeps_os_path_exists | intros present].
  apply keeps_bind.
  { apply keeps_if; [apply keeps_makedirs_attachments | apply keeps_ret]. }
  intros _. apply keeps_bind_lift. intros cleaned Hc.
  destruct filename; try discriminate. injection Hc as <-.
  apply keeps_bind; [apply keeps_open_wb, join_in_attachments | intros _].
  apply keeps_bind; [apply keeps_file_write, join_in_attachments | intros _].
  apply keeps_print.
Qed.

(** Steps through a computation made of the script's operations. *)
Ltac keeps_step :=
  first
    [ apply keeps_ret
    | apply keeps_lift
    | apply keeps_raise
    | apply keeps_unfinished
    | apply keeps_print
    | apply keeps_requests_get
    | apply keeps_save_attachment
    | apply keeps_if
    | apply keeps_bind; [|intros ?] ].

Lemma keeps_process_part (tok : string) (message_id part : json) (n : nat) :
  keeps tok (process_part E tok message_id part n).
Proof. unfold process_part. repeat keeps_step. Qed.

Lemma keeps_process_parts (tok : string) (message_id : json)
    (parts : list json) (n : nat) :
  keeps tok (process_parts E tok message_id parts n).
Proof.
  revert n. induction parts as [|part parts IH]; intros n; cbn [process_parts].
  - apply keeps_ret.
  - apply keeps_bind; [apply keeps_process_part | intros n'; apply IH].
Qed.

Lemma keeps_decode_body (tok : string) (message_data : json) :
  keeps tok (decode_body E message_data).
Proof. unfold decode_body. repeat keeps_step. Qed.

Lemma keeps_process_message (tok : string) (message : json) (n : nat) :
  keeps tok (process_message E tok message n).
Proof.
  unfold process_message.
  repeat first [ apply keeps_decode_body | apply keeps_process_parts | keeps_step ].
Qed.

Lemma keeps_process_messages (tok : string) (messages : list json) (n : nat) :
  keeps tok (process_messages E tok messages n).
Proof.
  revert n. induction messages as [|message messages IH]; intros n;
    cbn [process_messages].
  - apply keeps_ret.
  - apply keeps_bind; [apply keeps_process_message | intros n'; apply IH].
Qed.

Lemma keeps_search_loop (fuel : nat) (tok : string) (page_token : json)
    (messages : list json) :
  keeps tok (search_loop E fuel tok page_token messages).
Proof.
  revert page_token messages.
  induction fuel as [|fuel IH]; intros page_token messages; cbn [search_loop].
  - apply keeps_unfinished.
  - repeat first [ apply IH | keeps_step ].
Qed.

Lemma keeps_fetch (fuel : nat) (tok : string) :
  keeps tok (fetch_and_save_attachments E fuel tok).
Proof.
  unfold fetch_and_save_attachments.
  repeat first [ apply keeps_search_loop | apply keeps_process_messages
               | keeps_step ].
Qed.

Lemma keeps_try_except (tok : string) {A} (m : M A) (h : exn -> M A) :
  keeps tok m -> (forall e, keeps tok (h e)) -> keeps tok (try_except m h).
Proof.
  intros Hm Hh w. unfold try_except. specialize (Hm w).
  destruct (m w) as [[a|e|] w']; cbn [snd] in *; try exact Hm.
  eapply frame_trans; [exact Hm | apply Hh].
Qed.

(** A run of [main] is, but for what it reads from the console, within
    [frame] for the token typed. *)
Lemma main_frame (fuel : nat) (w : world) :
  exists w1,
    sent w1 = sent w /\ files w1 = files w /\ dirs w1 = dirs w
    /\ (exists out, stdout w1 = stdout w ++ out)
    /\ frame (typed_token w) w1 (snd (main E fuel w)).
Proof.
  destruct (stdin w) as [|t [|b rest]] eqn:Hin.
  - unfold main, bind, input. rewrite Hin. cbn [snd].
    eexists. split; [|split; [|split; [|split]]].
    5: apply frame_refl.
    all: try reflexivity.
    cbn. now eexists.
  - unfold main, bind, input. rewrite Hin. cbn [stdin set_stdin snd].
    eexists. split; [|split; [|split; [|split]]].
    5: apply frame_refl.
    all: try reflexivity.
    cbn. rewrite <- app_assoc. now eexists.
  - rewrite (main_after_prompts E fuel t b rest w Hin).
    eexists. split; [|split; [|split; [|split]]].
    5: { unfold typed_token. rewrite Hin. cbn [hd].
         destruct (String.eqb (Str.strip t) "").
         - apply keeps_print.
         - apply keeps_try_except; [apply keeps_fetch|].
           intros e. apply keeps_print. }
    all: try reflexivity.
    cbn. now eexists.
Qed.

End Frame.

(** ** The entry point *)

Lemma lstrip_empty_iff (s : string) :
  Str.lstrip s = EmptyString <-> all_space s = true.
Proof.
  induction s as [|c s IH]; [easy|].
  cbn [Str.lstrip all_space]. destruct (Str.isspace c); cbn [andb]; [exact IH|].
  split; discriminate.
Qed.

Lemma rstrip_empty_iff (s : string) :
  Str.rstrip s = EmptyString <-> all_space s = true.
Proof.
  induction s as [|c s IH]; [easy|].
  cbn [Str.rstrip all_space].
  destruct (Str.rstrip s) as [|c' r] eqn:Hr.
  - destruct IH as [IH _]. rewrite (IH eq_refl), andb_true_r.
    destruct (Str.isspace c); split; congruence.
  - split; [discriminate|]. intros H. apply andb_true_iff in H as [_ H].
    apply IH in H. discriminate.
Qed.

Lemma all_space_lstrip (s : string) :
  all_space (Str.lstrip s) = all_space s.
Proof.
  induction s as [|c s IH]; [reflexivity|].
  cbn [Str.lstrip]. destruct (Str.isspace c) eqn:Hc.
  - cbn [all_space]. now rewrite Hc, IH.
  - reflexivity.
Qed.

(** Stripping leaves nothing exactly of the strings of white space. *)
Lemma strip_empty_iff (s : string) :
  Str.strip s = EmptyString <-> all_space s = true.
Proof.
  unfold Str.strip. rewrite rstrip_empty_iff. now rewrite all_space_lstrip.
Qed.

Section EntryPoint.

Context (E : externals).

(** X1: every request of a run of [main] goes out after those that were
    there, and carries the bearer token made of the first line typed,
    stripped. *)
Theorem main_requests_carry_typed_token (fuel : nat) (w : world) :
  exists rqs,
    sent (snd (main E fuel w)) = sent w ++ rqs
    /\ Forall (fun rq => authorization rq = "Bearer " +:+ typed_token w) rqs.
Proof.
  destruct (main_frame E fuel w) as (w1 & Hs & _ & _ & _ & Hfr).
  destruct (frame_sent _ _ _ Hfr) as (rqs & Hrqs & Hall).
  exists rqs. split; [congruence | exact Hall].
Qed.

(** X2: whatever is typed and whatever the server answers, a file that a
    run of [main] creates or changes lies directly in the directory
    [attachments]. *)
Theorem main_writes_only_in_attachments (fuel : nat) (w : world) (p : string) :
  files (snd (main E fuel w)) !! p <> files w !! p ->
  Path.dirname p = "attachments"
  /\ Str.mem Str.slash (Path.basename p) = false.
Proof.
  intros Hp.
  destruct (main_frame E fuel w) as (w1 & _ & Hf & _ & _ & Hfr).
  apply (frame_files _ _ _ Hfr). now rewrite Hf.
Qed.

(** X3: the only directory a run of [main] can add is [attachments]. *)
Theorem main_makes_only_attachments_dir (fuel : nat) (w : world) (d : string) :
  d ∈ dirs (snd (main E fuel w)) -> d ∈ dirs w \/ d = "attachments".
Proof.
  intros Hd.
  destruct (main_frame E fuel w) as (w1 & _ & _ & Hdirs & _ & Hfr).
  apply (frame_dirs _ _ _ Hfr) in Hd. rewrite Hdirs in Hd.
  apply elem_of_union in Hd as [Hd|Hd]; [now left|].
  right. now apply elem_of_singleton in Hd.
Qed.

(** X4: a run of [main] takes the two lines it asks for from the console
    and no other, whatever happens after the prompts. *)
Theorem main_reads_two_lines (fuel : nat) (w : world) :
  stdin (snd (main E fuel w)) = drop 2 (stdin w).
Proof.
  destruct (stdin w) as [|t [|b rest]] eqn:Hin.
  - unfold main, bind, input. rewrite Hin. cbn. exact Hin.
  - unfold main, bind, input. rewrite Hin. reflexivity.
  - rewrite (main_after_prompts E fuel t b rest w Hin). cbn [drop].
    match goal with
    | |- stdin (snd (?m ?w1)) = _ =>
        assert (Hk : keeps (Str.strip t) m)
    end.
    { destruct (String.eqb (Str.strip t) "").
      - apply keeps_print.
      - apply keeps_try_except; [apply keeps_fetch|].
        intros e. apply keeps_print. }
    now rewrite (frame_stdin _ _ _ (Hk _)).
Qed.

(** X5: once the two prompts are answered, [main] never ends with an
    exception: what the fetch raises is caught and printed. *)
Theorem main_never_raises (fuel : nat) (t b : string) (rest : list string)
    (w : world) :
  stdin w = t :: b :: rest ->
  fst (main E fuel w) = Ok tt \/ fst (main E fuel w) = Unfinished.
Proof.
  intros Hin. rewrite (main_after_prompts E fuel t b rest w Hin).
  destruct (String.eqb (Str.strip t) ""); [now left|].
  unfold try_except.
  destruct (fetch_and_save_attachments E fuel (Str.strip t) _)
    as [[[]|e|] w']; [now left | now left | now right].
Qed.

(** X6: when the console gives out before the brand name is typed, [main]
    ends with [EOFError] and has sent nothing and written no file, even
    with a token typed. *)
Theorem main_needs_both_lines (fuel : nat) (w : world) :
  length (stdin w) < 2 ->
  fst (main E fuel w) = Raise (mk_exn EOFError "EOF when reading a line")
  /\ sent (snd (main E fuel w)) = sent w
  /\ files (snd (main E fuel w)) = files w
  /\ dirs (snd (main E fuel w)) = dirs w.
Proof.
  intros Hlen. destruct (stdin w) as [|t [|b rest]] eqn:Hin.
  - unfold main, bind, input. rewrite Hin. now repeat split.
  - unfold main, bind, input. rewrite Hin. now repeat split.
  - cbn in Hlen. lia.
Qed.

(** The fetch opens with the user-info request. *)
Lemma fetch_first_request (fuel : nat) (tok : string) (w : world) :
  exists rqs,
    sent (snd (fetch_and_save_attachments E fuel tok w))
    = sent w ++ userinfo_request tok :: rqs.
Proof.
  unfold fetch_and_save_attachments.
  match goal with
  | |- context [bind (requests_get E userinfo_url tok) ?k] =>
      assert (Hk : forall a, keeps tok (k a))
  end.
  { intros user_info.
    repeat first [ apply keeps_search_loop | apply keeps_process_messages
                 | apply keeps_raise | apply keeps_print | apply keeps_if
                 | apply keeps_bind; [|intros ?] ]. }
  unfold bind at 1, requests_get. fold (userinfo_request tok).
  destruct (server E (sent w) (userinfo_request tok)) as [r|e|];
    cbn [snd]; try (exists []; reflexivity).
  destruct (frame_sent _ _ _ (Hk r (log_request (userinfo_request tok) w)))
    as (rqs & Hrqs & _).
  exists rqs. rewrite Hrqs. cbn [sent log_request].
  now rewrite <- app_assoc.
Qed.

(** X7: with the two prompts answered, [main] sends nothing exactly when
    the token typed is white space only; otherwise its first request is
    the user-info request with the stripped token. *)
Theorem blank_token_iff_no_request (fuel : nat) (t b : string)
    (rest : list string) (w : world) :
  stdin w = t :: b :: rest ->
  (all_space t = true <-> sent (snd (main E fuel w)) = sent w)
  /\ (all_space t = false ->
      exists rqs,
        sent (snd (main E fuel w))
        = sent w ++ userinfo_request (Str.strip t) :: rqs).
Proof.
  intros Hin. rewrite (main_after_prompts E fuel t b rest w Hin).
  assert (Hsent : all_space t = false ->
            exists rqs,
              sent (snd (try_except
                     (fetch_and_save_attachments E fuel (Str.strip t))
                     (fun e => print ("An error occurred: " +:+ exn_str e))
                     (mk_world (sent w) (files w) (dirs w)
                        (stdout w ++ ["Enter your Google OAuth2 Access Token: ";
                                      "Enter the brand name: "]) rest)))
              = sent w ++ userinfo_request (Str.strip t) :: rqs).
  { intros _. unfold try_except.
    match goal with
    | |- context [fetch_and_save_attachments E fuel ?tok ?w1] =>
        destruct (fetch_first_request fuel tok w1) as (rqs & Hrqs);
        destruct (fetch_and_save_attachments E fuel tok w1) as [[[]|e|] w']
    end; cbn [snd] in *; exists rqs; exact Hrqs. }
  destruct (all_space t) eqn:Hsp.
  - apply strip_empty_iff in Hsp. rewrite Hsp. cbn [String.eqb].
    split; [|discriminate]. split; [reflexivity|reflexivity].
  - assert (Hne : String.eqb (Str.strip t) "" = false).
    { apply String.eqb_neq. intros H0. apply strip_empty_iff in H0. congruence. }
    rewrite Hne. split; [|exact Hsent].
    split; [discriminate|]. intros Heq.
    destruct (Hsent eq_refl) as (rqs & Hrqs). rewrite Hrqs in Heq.
    apply (f_equal length) in Heq. rewrite length_app in Heq.
    cbn [length] in Heq. lia.
Qed.

(** X8: a status other than 200 from the user-info endpoint ends the run
    normally: [main] prints the failure with the response text after the
    two prompts, and the user-info request is all that was sent. *)
Theorem main_reports_auth_failure (fuel : nat) (t b : string)
    (rest : list string) (w : world) (user_info : response) :
  stdin w = t :: b :: rest ->
  all_space t = false ->
  server E (sent w) (userinfo_request (Str.strip t)) = Ok user_info ->
  status_code user_info <> 200%Z ->
  main E fuel w
  = (Ok tt,
     mk_world (sent w ++ [userinfo_request (Str.strip t)]) (files w) (dirs w)
       (stdout w ++ ["Enter your Google OAuth2 Access Token: ";
                     "Enter the brand name: ";
                     "An error occurred: Failed to fetch user info: "
                     +:+ text user_info +:+ Str.nl])
       rest).
Proof.
  intros Hin Hsp Hsrv Hstatus.
  rewrite (main_after_prompts E fuel t b rest w Hin).
  assert (Hne : String.eqb (Str.strip t) "" = false).
  { apply String.eqb_neq. intros H0. apply strip_empty_iff in H0. congruence. }
  rewrite Hne.
  unfold try_except, fetch_and_save_attachments, bind at 1, requests_get.
  cbn [sent]. fold (userinfo_request (Str.strip t)). rewrite Hsrv.
  apply Z.eqb_neq in Hstatus. rewrite Hstatus. cbn [negb].
  unfold raise, print, write_stdout, log_request. cbn.
  rewrite <- !app_assoc. cbn. rewrite app_assoc_str. reflexivity.
Qed.

End EntryPoint.

(** ** Text extraction *)

Lemma or_empty (t : string) :
  (if String.eqb t "" then EmptyString else t) = t.
Proof. destruct (String.eqb_spec t ""); congruence. Qed.

Lemma last_char_eq (a b : string) (c d : ascii) :
  a +:+ String c EmptyString = b +:+ String d EmptyString -> c = d.
Proof.
  revert b. induction a as [|x a IH]; intros [|y b] H.
  - now injection H.
  - rewrite app_Empty, app_String in H. injection H as _ H.
    destruct b; discriminate.
  - rewrite app_Empty, app_String in H. injection H as _ H.
    destruct a; discriminate.
  - rewrite !app_String in H. injection H as _ H. now apply (IH b).
Qed.

(** A string cannot end in [.pdf] and in [.docx]. *)
Lemma endswith_docx_not_pdf (s : string) :
  Str.endswith s ".docx" = true -> Str.endswith s ".pdf" = false.
Proof.
  intros Hd. apply not_true_is_false. intros Hp.
  apply endswith_true in Hd as [a Ha]. apply endswith_true in Hp as [b Hb].
  rewrite Ha in Hb.
  change ".docx" with (".doc" +:+ "x") in Hb.
  change ".pdf" with (".pd" +:+ "f") in Hb.
  rewrite <- !app_assoc_str in Hb. apply last_char_eq in Hb. discriminate.
Qed.

Section Extraction.

Context (E : externals).

Lemma pdf_loop_texts (texts : list (option string))
    (tail : list (outcome (option string))) (acc : string) :
  pdf_loop (map Ok texts ++ tail) acc = pdf_loop tail (acc +:+ pages_text texts).
Proof.
  revert acc. induction texts as [|t texts IH]; intros acc; cbn [map app pages_text foldr].
  - now rewrite app_Empty_r.
  - cbn [pdf_loop]. destruct t as [t|]; cbn [default from_option id].
    + rewrite or_empty, IH. now rewrite app_assoc_str.
    + rewrite IH. now rewrite app_assoc_str.
Qed.

(** X9: the text of a PDF is the texts of its pages put end to end in
    page order, a page without text counting for nothing; a PDF without
    pages gives the empty string. *)
Theorem pdf_text_is_pages_concatenated (data : bytes)
    (texts : list (option string)) :
  pdf_pages E data = Ok (map Ok texts) ->
  extract_text_from_pdf E data = Ok (pages_text texts).
Proof.
  intros H. unfold extract_text_from_pdf. rewrite H.
  rewrite <- (app_nil_r (map Ok texts)), pdf_loop_texts.
  now rewrite app_Empty.
Qed.

(** X10: the first page whose text cannot be extracted ends the
    extraction with its exception: the text of the pages before it is
    lost and the pages after it are not read. *)
Theorem pdf_failing_page_aborts (data : bytes) (texts : list (option string))
    (e : exn) (rest : list (outcome (option string))) :
  pdf_pages E data = Ok (map Ok texts ++ Raise e :: rest) ->
  extract_text_from_pdf E data = Raise e.
Proof.
  intros H. unfold extract_text_from_pdf. rewrite H.
  now rewrite pdf_loop_texts.
Qed.

(** X11: a file name that ends in [.pdf], case ignored, goes to the PDF
    extractor, and one that ends in [.docx] to the DOCX extractor,
    whatever comes before the extension. *)
Theorem extension_selects_extractor (filename : string) (data : bytes) :
  (ends_with_ignoring_case filename ".pdf" ->
   extract_text_from_attachment E (JStr filename) data
   = extract_text_from_pdf E data)
  /\ (ends_with_ignoring_case filename ".docx" ->
      extract_text_from_attachment E (JStr filename) data
      = extract_text_from_docx E data).
Proof.
  unfold extract_text_from_attachment, str_method. split; intros H.
  - apply endswith_lower_iff in H; [|reflexivity]. now rewrite H.
  - apply endswith_lower_iff in H; [|reflexivity].
    now rewrite (endswith_docx_not_pdf _ H), H.
Qed.

End Extraction.

(** ** Messages and parts *)

Lemma yields_ret {A} (P : A -> Prop) (a : A) : P a -> yields P (ret a).
Proof. intros Ha w b w' H. injection H as <- _. exact Ha. Qed.

Lemma yields_bind {A B} (P : B -> Prop) (m : M A) (k : A -> M B) :
  (forall a, yields P (k a)) -> yields P (bind m k).
Proof.
  intros Hk w b w' H. unfold bind in H.
  destruct (m w) as [[a|e|] w1]; try discriminate.
  now apply (Hk a w1 b w').
Qed.

Lemma yields_if {A} (P : A -> Prop) (c : bool) (m1 m2 : M A) :
  yields P m1 -> yields P m2 -> yields P (if c then m1 else m2).
Proof. now destruct c. Qed.

Section Parts.

Context (E : externals).

Lemma process_part_counts (tok : string) (message_id part : json) (n : nat) :
  yields (fun n' => n <= n' <= n + 1) (process_part E tok message_id part n).
Proof.
  unfold process_part.
  repeat first [ apply yields_ret; lia | apply yields_if
               | apply yields_bind; intros ? ].
Qed.

(** X12: the counter of processed attachments never goes down over the
    parts of a message and goes up by at most one per part. *)
Theorem parts_counter_bounds (tok : string) (message_id : json)
    (parts : list json) (n n' : nat) (w w' : world) :
  process_parts E tok message_id parts n w = (Ok n', w') ->
  n <= n' <= n + length parts.
Proof.
  revert n w. induction parts as [|part parts IH]; intros n w H;
    cbn [process_parts length] in *.
  - injection H as <- _. lia.
  - unfold bind in H.
    destruct (process_part E tok message_id part n w) as [[n1|e|] w1] eqn:H1;
      try discriminate.
    apply process_part_counts in H1. apply IH in H. lia.
Qed.

Lemma plain_part_passed (tok : string) (message_id part : json) (n : nat)
    (w : world) :
  plain_part part -> process_part E tok message_id part n w = (Ok n, w).
Proof.
  intros (fields & -> & [Hb|(bf & Hb & Ha)]);
    unfold process_part, bind, lift, has_nested, py_in, py_getitem;
    rewrite Hb; [reflexivity|].
  cbv beta iota. rewrite Ha. reflexivity.
Qed.

(** X13: parts that are no attachments (no ["body"], or a body without
    ["attachmentId"]) are passed over: no request, no file, no output, the
    counter as it was. *)
Theorem plain_parts_are_ignored (tok : string) (message_id : json)
    (parts : list json) (n : nat) (w : world) :
  Forall plain_part parts ->
  process_parts E tok message_id parts n w = (Ok n, w).
Proof.
  intros H. induction H as [|part parts Hp _ IH]; cbn [process_parts].
  - reflexivity.
  - unfold bind. now rewrite (plain_part_passed _ _ _ _ _ Hp).
Qed.

Lemma without_id_passed (tok : string) (message : json) (n : nat) (w : world) :
  without_id message -> process_message E tok message n w = (Ok n, w).
Proof.
  intros [H|(fields & -> & H)]; unfold process_message.
  - now rewrite H.
  - destruct (truthy (JObj fields)); [|reflexivity].
    cbn [negb]. unfold bind, lift, py_get. now rewrite H.
Qed.

(** X14: message references that are falsy or have no usable ["id"] are
    passed over without a request. *)
Theorem messages_without_id_are_skipped (tok : string) (messages : list json)
    (n : nat) (w : world) :
  Forall without_id messages ->
  process_messages E tok messages n w = (Ok n, w).
Proof.
  intros H. induction H as [|message messages Hm _ IH]; cbn [process_messages].
  - reflexivity.
  - unfold bind. now rewrite (without_id_passed _ _ _ _ Hm).
Qed.

(** X15: a message whose detail has no ["payload"] has no attachment: all
    that happens is the request for the detail. *)
Theorem message_without_payload (tok : string) (fields detail : list (string * json))
    (message_id : json) (resp : response) (n : nat) (w : world) :
  lookup_field "id" fields = Some message_id ->
  truthy message_id = true ->
  server E (sent w)
    (mk_request (messages_url +:+ "/" +:+ py_str E message_id)
                ("Bearer " +:+ tok)) = Ok resp ->
  json_of resp = Ok (JObj detail) ->
  lookup_field "payload" detail = None ->
  process_message E tok (JObj fields) n w
  = (Ok n,
     log_request (mk_request (messages_url +:+ "/" +:+ py_str E message_id)
                             ("Bearer " +:+ tok)) w).
Proof.
  intros Hid Htrue Hsrv Hjson Hpay. unfold process_message.
  assert (Hobj : truthy (JObj fields) = true).
  { destruct fields; [discriminate | reflexivity]. }
  rewrite Hobj. cbn [negb].
  unfold bind at 1, lift, py_get. rewrite Hid. cbn [from_option id].
  rewrite Htrue. cbn [negb].
  unfold bind at 1, requests_get. rewrite Hsrv.
  unfold bind at 1. rewrite Hjson.
  unfold decode_body, has_nested, bind, lift, py_in. rewrite Hpay.
  reflexivity.
Qed.

(** What the loop does with an attachment whose bytes arrive. *)
Lemma process_part_arrives (tok : string) (message_id part : json)
    (attachment_id filename : json) (content : bytes) (n : nat) (w : world) :
  attachment_arrives E tok message_id part w attachment_id filename content ->
  process_part E tok message_id part n w
  = (save_attachment_locally E filename content "attachments" ;;;
     text <- lift (extract_text_from_attachment E filename content) ;;
     print ("Extracted text from " +:+ py_str E filename +:+ ":") ;;;
     print text ;;;
     ret (n + 1))
      (log_request (attachment_request E tok message_id attachment_id) w).
Proof.
  intros (fields & bf & resp & doc & d & -> & Hbody & Hid & -> & Hsrv & Hjson
          & Hdata & Htruthy & Hdecode).
  unfold process_part, bind, lift, has_nested, py_in, py_getitem, py_get,
    requests_get.
  rewrite Hbody. cbv beta iota. rewrite Hid. cbv beta iota.
  rewrite !bool_decide_eq_true_2 by eauto. cbv beta iota.
  fold (attachment_request E tok message_id attachment_id).
  rewrite Hsrv. cbv beta iota. rewrite Hjson. cbv beta iota.
  rewrite Hdata. cbn [from_option id]. rewrite Htruthy. cbn [negb].
  rewrite Hdecode. reflexivity.
Qed.

(** The persister's first steps on [attachments]: the directory is there
    or is made, and nothing else changes. *)
Lemma save_attachment_ensures_dir (filename : json) (data : bytes) (w : world) :
  exists w1,
    sent w1 = sent w /\ files w1 = files w /\ stdout w1 = stdout w
    /\ save_attachment_locally E filename data "attachments" w
       = (cleaned_filename <-
            lift (str_method E filename "replace"
                    (fun s => Str.replace s "/" "")) ;;
          open_wb (Path.join "attachments" cleaned_filename) ;;;
          file_write (Path.join "attachments" cleaned_filename) data ;;;
          print ("Saved attachment: "
                 +:+ Path.join "attachments" cleaned_filename)) w1.
Proof.
  unfold save_attachment_locally, bind at 1. rewrite exists_attachments.
  destruct (is_dir w "attachments" || is_file w "attachments") eqn:Hp;
    cbn [negb].
  { exists w. now repeat split. }
  unfold bind at 1. rewrite makedirs_attachments, Hp.
  eexists. split; [|split; [|split]]; [| | |reflexivity]; reflexivity.
Qed.

(** X16: a ["filename"] that is there and is no string (JSON null, a
    number) is not replaced by the default: the persister raises
    [AttributeError] on it, after the attachment was requested, and no
    file is written. *)
Theorem non_string_filename_raises (tok : string) (message_id part : json)
    (attachment_id filename : json) (content : bytes) (n : nat) (w : world) :
  attachment_arrives E tok message_id part w attachment_id filename content ->
  (forall name, filename <> JStr name) ->
  fst (process_part E tok message_id part n w)
  = Raise (mk_exn AttributeError (describe E (OpGetAttr "replace") filename))
  /\ files (snd (process_part E tok message_id part n w)) = files w
  /\ sent (snd (process_part E tok message_id part n w))
     = sent w ++ [attachment_request E tok message_id attachment_id].
Proof.
  intros Harr Hns. rewrite (process_part_arrives _ _ _ _ _ _ n w Harr).
  destruct (save_attachment_ensures_dir filename content
              (log_request (attachment_request E tok message_id attachment_id) w))
    as (w1 & Hs & Hf & _ & Heq).
  unfold bind. rewrite Heq. unfold bind, lift, str_method.
  destruct filename as [| | | |name| |];
    [| | | |now elim (Hns name)| |];
    cbn [fst snd]; (split; [reflexivity|]); (split; [exact Hf | exact Hs]).
Qed.

(** X17: when the text extraction of a saved attachment fails, its
    exception ends the loop, and the file written just before stays on
    disk with the attachment's bytes. *)
Theorem extraction_failure_keeps_file (tok : string) (message_id part : json)
    (attachment_id : json) (name : string) (content : bytes) (e : exn)
    (n : nat) (w : world) :
  attachment_arrives E tok message_id part w attachment_id (JStr name) content ->
  fst (save_attachment_locally E (JStr name) content "attachments"
         (log_request (attachment_request E tok message_id attachment_id) w))
  = Ok tt ->
  extract_text_from_attachment E (JStr name) content = Raise e ->
  fst (process_part E tok message_id part n w) = Raise e
  /\ files (snd (process_part E tok message_id part n w))
       !! Path.join "attachments" (Str.replace name "/" "")
     = Some content.
Proof.
  intros Harr Hsave Hext. rewrite (process_part_arrives _ _ _ _ _ _ n w Harr).
  destruct (save_attachment_cases E name content "attachments"
              (log_request (attachment_request E tok message_id attachment_id) w))
    as [(_ & Hfiles & _)|[[e' He] _]]; [|congruence].
  unfold bind.
  destruct (save_attachment_locally E (JStr name) content "attachments" _)
    as [[[]|e'|] w1]; cbn [fst snd] in *; try discriminate.
  unfold lift. rewrite Hext. cbn [fst snd].
  split; [reflexivity|]. rewrite Hfiles. apply lookup_insert_eq.
Qed.

(** A save that succeeds prints the path it saved, and nothing else. *)
Lemma save_attachment_prints (name : string) (data : bytes) (w : world) :
  fst (save_attachment_locally E (JStr name) data "attachments" w) = Ok tt ->
  stdout (snd (save_attachment_locally E (JStr name) data "attachments" w))
  = stdout w ++ ["Saved attachment: "
                 +:+ Path.join "attachments" (Str.replace name "/" "")
                 +:+ Str.nl].
Proof.
  destruct (save_attachment_ensures_dir (JStr name) data w)
    as (w1 & _ & _ & Hout & ->).
  unfold bind, lift, str_method, open_wb. cbv zeta.
  repeat match goal with
         | |- context [if ?b then _ else _] => destruct b
         end;
    try discriminate.
  intros _. cbn. now rewrite Hout, app_assoc_str.
Qed.

(** X18: an attachment whose bytes arrive, whose file can be written and
    whose text can be extracted is counted once; its file holds the
    decoded bytes and three lines are printed: the path saved, the name
    read and the text. *)
Theorem attachment_is_saved_and_counted (tok : string) (message_id part : json)
    (attachment_id : json) (name text : string) (content : bytes)
    (n : nat) (w : world) :
  attachment_arrives E tok message_id part w attachment_id (JStr name) content ->
  fst (save_attachment_locally E (JStr name) content "attachments"
         (log_request (attachment_request E tok message_id attachment_id) w))
  = Ok tt ->
  extract_text_from_attachment E (JStr name) content = Ok text ->
  let r := process_part E tok message_id part n w in
  let filepath := Path.join "attachments" (Str.replace name "/" "") in
  fst r = Ok (n + 1)
  /\ files (snd r) = <[filepath := content]> (files w)
  /\ stdout (snd r)
     = stdout w ++ ["Saved attachment: " +:+ filepath +:+ Str.nl;
                    "Extracted text from " +:+ name +:+ ":" +:+ Str.nl;
                    text +:+ Str.nl].
Proof.
  intros Harr Hsave Hext r filepath. subst r.
  rewrite (process_part_arrives _ _ _ _ _ _ n w Harr).
  destruct (save_attachment_cases E name content "attachments"
              (log_request (attachment_request E tok message_id attachment_id) w))
    as [(_ & Hfiles & _)|[[e He] _]]; [|congruence].
  pose proof (save_attachment_prints name content _ Hsave) as Hout.
  unfold bind.
  destruct (save_attachment_locally E (JStr name) content "attachments" _)
    as [[[]|e'|] w1]; cbn [fst snd] in *; try discriminate.
  unfold lift. rewrite Hext. cbn.
  split; [reflexivity|]. split; [exact Hfiles|].
  rewrite Hout. rewrite <- !app_assoc. cbn.
  now rewrite !app_assoc_str.
Qed.

End Parts.

(** ** A mailbox without matches *)

Section EmptyMailbox.

Context (E : externals).

(** X20: a mailbox without matches: after a 200 from the user-info
    endpoint and one page with neither messages nor continuation token,
    the fetch ends normally after those two requests, prints both totals
    as 0 and touches no file or directory. *)
Theorem empty_mailbox_run (fuel : nat) (tok : string) (w : world)
    (user_info page_resp : response) (fields : list (string * json)) :
  server E (sent w) (userinfo_request tok) = Ok user_info ->
  status_code user_info = 200%Z ->
  server E (sent w ++ [userinfo_request tok]) (search_request E tok JNull)
  = Ok page_resp ->
  json_of page_resp = Ok (JObj fields) ->
  lookup_field "messages" fields = None ->
  lookup_field "nextPageToken" fields = None ->
  fetch_and_save_attachments E (S fuel) tok w
  = (Ok tt,
     mk_world (sent w ++ [userinfo_request tok; search_request E tok JNull])
       (files w) (dirs w)
       (stdout w ++ ["Total messages found: 0" +:+ Str.nl;
                     "Total attachments processed: 0" +:+ Str.nl])
       (stdin w)).
Proof.
  intros Hui Hstatus Hsrv Hjson Hmsgs Htok.
  unfold fetch_and_save_attachments, bind at 1, requests_get.
  fold (userinfo_request tok). rewrite Hui.
  apply Z.eqb_eq in Hstatus. rewrite Hstatus. cbn [negb].
  unfold bind at 1.
  rewrite (search_loop_step E fuel tok JNull (JObj fields) [] page_resp
             (log_request (userinfo_request tok) w) Hsrv Hjson).
  2: { exists fields. split; [reflexivity | now left]. }
  cbn [has_token page_messages]. rewrite Hmsgs, Htok.
  rewrite bool_decide_eq_false_2 by (intros [? ?]; discriminate).
  cbn. unfold log_request, write_stdout. cbn.
  rewrite <- !app_assoc. unfold print, write_stdout. cbn.
  now rewrite <- !app_assoc.
Qed.

End EmptyMailbox.

(** ** The persister *)

Lemma replace_slash_app (a b : string) :
  Str.replace (a +:+ b) "/" "" = Str.replace a "/" "" +:+ Str.replace b "/" "".
Proof.
  induction a as [|c a IH]; [reflexivity|].
  rewrite app_String, !replace_slash_cons, IH.
  now destruct (Ascii.eqb c Str.slash).
Qed.

Lemma mem_app_str (c : ascii) (a b : string) :
  Str.mem c (a +:+ b) = Str.mem c a || Str.mem c b.
Proof.
  induction a as [|d a IH]; [reflexivity|].
  rewrite app_String. cbn [Str.mem]. now rewrite IH, orb_assoc.
Qed.

Lemma mem_replace_slash (c : ascii) (s : string) :
  c <> Str.slash -> Str.mem c (Str.replace s "/" "") = Str.mem c s.
Proof.
  intros Hc. induction s as [|d s IH]; [reflexivity|].
  rewrite replace_slash_cons.
  destruct (Ascii.eqb_spec d Str.slash) as [->|Hd]; cbn [Str.mem];
    rewrite IH; [|reflexivity].
  apply Ascii.eqb_neq in Hc. now rewrite Hc.
Qed.

Lemma nul_not_slash : Path.nul <> Str.slash.
Proof. discriminate. Qed.

Lemma join_attachments (t : string) :
  Str.mem Str.slash t = false ->
  Path.join "attachments" t = "attachments/" +:+ t.
Proof.
  intros Ht. unfold Path.join.
  assert (Hp : String.prefix "/" t = false).
  { destruct t as [|c t]; [reflexivity|]. rewrite prefix_slash.
    cbn [Str.mem] in Ht. apply orb_false_iff in Ht as [Hc _].
    now rewrite Ascii.eqb_sym. }
  rewrite Hp. reflexivity.
Qed.

Section Names.

Context (E : externals).

(** X21: a name without a slash is saved under itself: the persister
    changes a name only by taking slashes out. *)
Theorem slash_free_name_is_kept (name : string) (data : bytes)
    (output_dir : string) (w : world) :
  Str.mem Str.slash name = false ->
  Str.replace name "/" "" = name
  /\ (fst (save_attachment_locally E (JStr name) data output_dir w) = Ok tt ->
      files (snd (save_attachment_locally E (JStr name) data output_dir w))
        !! Path.join output_dir name = Some data).
Proof.
  intros Hns.
  assert (Hid : Str.replace name "/" "" = name).
  { induction name as [|c name IH]; [reflexivity|].
    cbn [Str.mem] in Hns. apply orb_false_iff in Hns as [Hc Hn].
    rewrite replace_slash_cons, Ascii.eqb_sym, Hc. now rewrite (IH Hn). }
  split; [exact Hid|]. intros Hok.
  destruct (save_attachment_cases E name data output_dir w)
    as [(_ & Hf & _)|[[e He] _]]; [|congruence].
  rewrite Hf, Hid. apply lookup_insert_eq.
Qed.

(** X22: the persister cannot tell apart two names that differ in
    slashes alone: with or without a slash between [a] and [b] the run
    is the same, so both attachments go to one file. *)
Theorem names_differing_in_slashes_collide (a b : string) (data : bytes)
    (output_dir : string) (w : world) :
  save_attachment_locally E (JStr (a +:+ "/" +:+ b)) data output_dir w
  = save_attachment_locally E (JStr (a +:+ b)) data output_dir w.
Proof.
  unfold save_attachment_locally, str_method.
  now rewrite !replace_slash_app.
Qed.

(** X23: a save that succeeds leaves the output directory in place: it
    was there or it was made. *)
Theorem persister_makes_directory (name : string) (data : bytes)
    (output_dir : string) (w : world) :
  output_dir <> EmptyString ->
  fst (save_attachment_locally E (JStr name) data output_dir w) = Ok tt ->
  is_dir (snd (save_attachment_locally E (JStr name) data output_dir w))
    output_dir = true.
Proof.
  intros Hout.
  pose proof (replace_slash_no_slash name) as Hns.
  destruct (rsplit_join output_dir _ Hns) as [Hdn Hbase].
  assert (Hopen : forall w1,
    fst (bind (open_wb (Path.join output_dir (Str.replace name "/" "")))
           (fun _ => bind (file_write (Path.join output_dir
                                         (Str.replace name "/" "")) data)
              (fun _ => print ("Saved attachment: "
                               +:+ Path.join output_dir
                                     (Str.replace name "/" "")))) w1) = Ok tt ->
    is_dir (snd (bind (open_wb (Path.join output_dir (Str.replace name "/" "")))
           (fun _ => bind (file_write (Path.join output_dir
                                         (Str.replace name "/" "")) data)
              (fun _ => print ("Saved attachment: "
                               +:+ Path.join output_dir
                                     (Str.replace name "/" "")))) w1))
      output_dir = true).
  { intros w1. unfold bind, open_wb. cbv zeta. rewrite Hbase.
    destruct (String.eqb_spec (Str.replace name "/" "") "") as [H0|Hnz].
    { repeat match goal with
             | |- context [if ?b then _ else _] => destruct b
             end; discriminate. }
    rewrite (proj1 (join_trim output_dir _ Hnz Hns)).
    rewrite Hdn, (is_dir_trim _ _ Hout).
    assert (Hne : String.eqb (Path.trim output_dir) "" = false).
    { apply String.eqb_neq. now apply trim_not_empty. }
    rewrite Hne. cbn [orb].
    destruct (is_dir w1 output_dir) eqn:Hd; cbn [negb].
    - intros _.
      repeat match goal with
             | |- context [if ?b then _ else _] => destruct b
             end; exact Hd.
    - repeat match goal with
             | |- context [if ?b then _ else _] => destruct b
             end; discriminate. }
  assert (Hsteps :
    (exists e, fst (save_attachment_locally E (JStr name) data output_dir w)
               = Raise e)
    \/ exists w1,
         save_attachment_locally E (JStr name) data output_dir w
         = bind (open_wb (Path.join output_dir (Str.replace name "/" "")))
             (fun _ => bind (file_write (Path.join output_dir
                                           (Str.replace name "/" "")) data)
                (fun _ => print ("Saved attachment: "
                                 +:+ Path.join output_dir
                                       (Str.replace name "/" "")))) w1).
  { unfold save_attachment_locally, os_path_exists, lift, str_method.
    destruct (negb (refused output_dir)
              && (is_dir w output_dir || is_file w output_dir)) eqn:Hp.
    - right. exists w. unfold bind at 1. rewrite Hp. reflexivity.
    - pose proof (os_makedirs_finishes output_dir w) as Hfin.
      destruct (os_makedirs output_dir w) as [[[]|e|] w1] eqn:Hm.
      + right. exists w1. unfold bind at 1. rewrite Hp. cbn [negb].
        unfold bind at 1. rewrite Hm. reflexivity.
      + left. exists e. unfold bind at 1. rewrite Hp. cbn [negb].
        unfold bind at 1. rewrite Hm. reflexivity.
      + now elim Hfin. }
  destruct Hsteps as [[e He]|[w1 Heq]]; [congruence|].
  rewrite Heq. apply Hopen.
Qed.

(** The persister's first steps on [attachments], with what they leave
    behind: the directory, unless a file has its name. *)
Lemma attachments_dir_ready (filename : json) (data : bytes) (w : world) :
  exists w1,
    files w1 = files w
    /\ (is_file w "attachments" = false -> is_dir w1 "attachments" = true)
    /\ save_attachment_locally E filename data "attachments" w
       = (cleaned_filename <-
            lift (str_method E filename "replace"
                    (fun s => Str.replace s "/" "")) ;;
          open_wb (Path.join "attachments" cleaned_filename) ;;;
          file_write (Path.join "attachments" cleaned_filename) data ;;;
          print ("Saved attachment: "
                 +:+ Path.join "attachments" cleaned_filename)) w1.
Proof.
  unfold save_attachment_locally, bind at 1. rewrite exists_attachments.
  destruct (is_dir w "attachments") eqn:Hd; cbn [orb negb].
  { exists w. split; [reflexivity|]. split; [now intros _ | reflexivity]. }
  destruct (is_file w "attachments") eqn:Hfile; cbn [negb].
  { exists w. split; [reflexivity|]. split; [discriminate | reflexivity]. }
  unfold bind at 1. rewrite makedirs_attachments, Hd, Hfile. cbn [orb].
  eexists. split; [|split; [|reflexivity]]; [reflexivity|].
  intros _. rewrite is_dir_eq. cbn [dirs set_dirs].
  change (Path.trim "attachments") with "attachments".
  rewrite (bool_decide_eq_true_2 ("attachments" ∈ dirs w ∪ {["attachments"]}))
    by (apply elem_of_union_r, elem_of_singleton; reflexivity).
  rewrite orb_true_r. reflexivity.
Qed.

(** X26: an attachment whose file name holds a NUL character cannot be
    saved: [open] refuses the joined path with [ValueError], and no file
    is written. *)
Theorem nul_in_name_raises (name : string) (data : bytes) (w : world) :
  Str.mem Path.nul name = true ->
  exists e,
    fst (save_attachment_locally E (JStr name) data "attachments" w) = Raise e
    /\ exn_cls e = ValueError
    /\ files (snd (save_attachment_locally E (JStr name) data "attachments" w))
       = files w.
Proof.
  intros Hnul.
  destruct (attachments_dir_ready (JStr name) data w) as (w1 & Hf & _ & ->).
  pose proof (replace_slash_no_slash name) as Hns.
  unfold bind, lift, str_method, open_wb. cbv zeta.
  rewrite (join_attachments _ Hns), mem_app_str.
  rewrite (mem_replace_slash Path.nul name nul_not_slash), Hnul, orb_true_r.
  exists embedded_null. split; [reflexivity|]. split; [reflexivity | exact Hf].
Qed.

(** X27: an attachment whose cleaned name takes more than 255 bytes
    cannot be saved: with no file standing where [attachments] goes,
    [open] fails with [OSError], the name being too long, and no file is
    written. *)
Theorem long_name_raises (name : string) (data : bytes) (w : world) :
  Str.mem Path.nul name = false ->
  Path.NAME_MAX < Path.bytes_len (Str.replace name "/" "") ->
  is_file w "attachments" = false ->
  exists e,
    fst (save_attachment_locally E (JStr name) data "attachments" w) = Raise e
    /\ exn_cls e = OSError
    /\ files (snd (save_attachment_locally E (JStr name) data "attachments" w))
       = files w.
Proof.
  intros Hnul Hlong Hfile.
  set (filepath := Path.join "attachments" (Str.replace name "/" "")).
  exists (os_error OSError "36" "File name too long" filepath).
  destruct (attachments_dir_ready (JStr name) data w) as (w1 & Hf & Hdir & ->).
  specialize (Hdir Hfile).
  pose proof (replace_slash_no_slash name) as Hns.
  assert (Hne : Str.replace name "/" "" <> EmptyString).
  { intros H0. rewrite H0 in Hlong. vm_compute in Hlong. lia. }
  destruct (rsplit_join "attachments" _ Hns) as [Hdn Hbase].
  destruct (join_trim "attachments" _ Hne Hns) as [Htrim Hnz].
  fold filepath in Hdn, Hbase, Htrim, Hnz.
  assert (Hmem : Str.mem Path.nul filepath = false).
  { unfold filepath. rewrite (join_attachments _ Hns), mem_app_str.
    now rewrite (mem_replace_slash Path.nul name nul_not_slash), Hnul. }
  unfold bind, lift, str_method, open_wb. cbv zeta. fold filepath.
  rewrite Hmem, Htrim, Hdn, Hbase.
  change (Path.trim "attachments") with "attachments". rewrite Hdir.
  destruct (Path.PATH_MAX <=? Path.bytes_len filepath)%nat;
    [split; [reflexivity|]; split; [reflexivity | exact Hf]|].
  destruct (String.eqb_spec filepath "") as [|_]; [contradiction|].
  rewrite orb_true_r. cbn [negb].
  destruct (String.eqb_spec (Str.replace name "/" "") "") as [|_];
    [contradiction|].
  rewrite (proj2 (Nat.ltb_lt _ _) Hlong).
  split; [reflexivity|]. split; [reflexivity | exact Hf].
Qed.

End Names.

(** ** More on the loops *)

Section Loops.

Context (E : externals).

(** X24: nothing but a page without continuation token ends the
    pagination: against a server whose every page carries one, the loop
    is still running after any number of turns, one request per turn. *)
Theorem endless_pages_never_leave (fuel : nat) (tok : string)
    (page_token : json) (messages : list json) (w : world) :
  (forall history rq,
     exists resp page,
       server E history rq = Ok resp /\ json_of resp = Ok page
       /\ is_page page /\ has_token page = true) ->
  fst (search_loop E fuel tok page_token messages w) = Unfinished
  /\ length (sent (snd (search_loop E fuel tok page_token messages w)))
     = length (sent w) + fuel.
Proof.
  intros Hsrv. revert page_token messages w.
  induction fuel as [|fuel IH]; intros page_token messages w.
  - cbn. split; [reflexivity | lia].
  - destruct (Hsrv (sent w) (search_request E tok page_token))
      as (resp & page & Hr & Hj & Hp & Ht).
    rewrite (search_loop_step E fuel tok page_token page messages resp w
               Hr Hj Hp), Ht.
    destruct (IH (next_token page) (messages ++ page_messages page)
                (log_request (search_request E tok page_token) w))
      as [Hun Hlen].
    split; [exact Hun|]. rewrite Hlen. cbn [sent log_request].
    rewrite length_app. cbn [length]. lia.
Qed.

(** X25: an attachment document whose ["data"] is there but falsy (an
    empty string, null) is passed over like one without the field: an
    attachment of no bytes is never saved nor counted. *)
Theorem part_with_empty_data_is_skipped (access_token : string)
    (message_id attachment_id data_base64 : json)
    (fields body_fields document : list (string * json))
    (rest : list json) (attachment_count : nat)
    (attachment_resp : response) (w : world) :
  lookup_field "body" fields = Some (JObj body_fields) ->
  lookup_field "attachmentId" body_fields = Some attachment_id ->
  server E (sent w) (attachment_request E access_token message_id attachment_id)
  = Ok attachment_resp ->
  json_of attachment_resp = Ok (JObj document) ->
  lookup_field "data" document = Some data_base64 ->
  truthy data_base64 = false ->
  process_parts E access_token message_id (JObj fields :: rest)
    attachment_count w
  = process_parts E access_token message_id rest attachment_count
      (log_request
         (attachment_request E access_token message_id attachment_id) w).
Proof.
  intros Hbody Hid Hsrv Hjson Hdata Hfalsy.
  cbn [process_parts]. unfold bind at 1.
  unfold process_part, bind, lift, has_nested, py_in, py_getitem, py_get,
    requests_get.
  rewrite Hbody. cbv beta iota. rewrite Hid. cbv beta iota.
  rewrite !bool_decide_eq_true_2 by eauto. cbv beta iota.
  fold (attachment_request E access_token message_id attachment_id).
  rewrite Hsrv. cbv beta iota. rewrite Hjson. cbv beta iota.
  rewrite Hdata. cbn [from_option id]. rewrite Hfalsy. reflexivity.
Qed.

End Loops.

(** ** The extra properties on the small mailboxes *)

(** The file of the session: it lies in [attachments]. *)
Lemma main_writes_witness :
  Path.dirname "attachments/..notes.txt" = "attachments"
  /\ Str.mem Str.slash (Path.basename "attachments/..notes.txt") = false.
Proof.
  apply (main_writes_only_in_attachments (Demo.env Demo.session) 10
           (Sample.typed [" tok "; "acme"])).
  vm_compute. discriminate.
Defined.

(** The directory of the session. *)
Lemma main_dirs_witness :
  "attachments" ∈ dirs (Sample.typed [" tok "; "acme"])
  \/ "attachments" = "attachments".
Proof.
  apply (main_makes_only_attachments_dir (Demo.env Demo.session) 10
           (Sample.typed [" tok "; "acme"])).
  apply (bool_decide_unpack _). vm_compute. exact I.
Defined.

Lemma main_never_raises_witness :
  fst (main (Demo.env Demo.session) 10 (Sample.typed [" tok "; "acme"])) = Ok tt
  \/ fst (main (Demo.env Demo.session) 10 (Sample.typed [" tok "; "acme"]))
     = Unfinished.
Proof.
  exact (main_never_raises (Demo.env Demo.session) 10 " tok " "acme" []
           (Sample.typed [" tok "; "acme"]) eq_refl).
Defined.

(** A token typed, then the end of the input. *)
Lemma main_needs_both_lines_witness :
  fst (main (Demo.env Demo.session) 10 (Sample.typed ["tok"]))
  = Raise (mk_exn EOFError "EOF when reading a line")
  /\ sent (snd (main (Demo.env Demo.session) 10 (Sample.typed ["tok"]))) = [].
Proof.
  destruct (main_needs_both_lines (Demo.env Demo.session) 10
              (Sample.typed ["tok"])) as (H1 & H2 & _).
  - cbn. lia.
  - split; [exact H1 | exact H2].
Defined.

Lemma blank_token_witness :
  exists rqs,
    sent (snd (main (Demo.env Demo.session) 10 (Sample.typed [" tok "; "acme"])))
    = [] ++ userinfo_request "tok" :: rqs.
Proof.
  destruct (blank_token_iff_no_request (Demo.env Demo.session) 10 " tok " "acme"
              [] (Sample.typed [" tok "; "acme"]) eq_refl) as [_ H].
  exact (H eq_refl).
Defined.

Lemma main_reports_auth_failure_witness :
  let E := Demo.env [mk_response 401 "Invalid Credentials" (Ok JNull)] in
  main E 3 (Sample.typed ["expired"; "acme"])
  = (Ok tt,
     mk_world [userinfo_request "expired"] ∅ ∅
       ["Enter your Google OAuth2 Access Token: ";
        "Enter the brand name: ";
        "An error occurred: Failed to fetch user info: Invalid Credentials"
        +:+ Str.nl]
       []).
Proof.
  refine (main_reports_auth_failure
            (Demo.env [mk_response 401 "Invalid Credentials" (Ok JNull)])
            3 "expired" "acme" [] (Sample.typed ["expired"; "acme"])
            (mk_response 401 "Invalid Credentials" (Ok JNull))
            eq_refl eq_refl eq_refl _).
  discriminate.
Defined.

Lemma pdf_text_witness :
  extract_text_from_pdf (Demo.env []) Demo.hi = Ok "page one".
Proof.
  exact (pdf_text_is_pages_concatenated (Demo.env []) Demo.hi
           [Some "page one"; None] eq_refl).
Defined.

Lemma pdf_failing_page_witness :
  extract_text_from_pdf (Sample.broken []) Demo.hi = Raise Sample.bad_page.
Proof.
  exact (pdf_failing_page_aborts (Sample.broken []) Demo.hi [Some "one"]
           Sample.bad_page [Ok (Some "three")] eq_refl).
Defined.

Lemma extension_witness :
  extract_text_from_attachment (Demo.env []) (JStr "Report.PDF") Demo.hi
  = extract_text_from_pdf (Demo.env []) Demo.hi
  /\ extract_text_from_attachment (Demo.env []) (JStr "cv.Docx") Demo.hi
     = extract_text_from_docx (Demo.env []) Demo.hi.
Proof.
  split.
  - apply (extension_selects_extractor (Demo.env []) "Report.PDF" Demo.hi).
    apply endswith_lower_iff; reflexivity.
  - apply (extension_selects_extractor (Demo.env []) "cv.Docx" Demo.hi).
    apply endswith_lower_iff; reflexivity.
Defined.

(** Two parts, one of them an attachment: the counter goes from 0 to 1. *)
Lemma parts_counter_witness : 0 <= 1 <= 0 + 2.
Proof.
  apply (parts_counter_bounds (Demo.env [Demo.ok Demo.with_data]) "tok"
           (JStr "m1") [Demo.named_part; JObj []] 0 1 Demo.fresh
           (snd (process_parts (Demo.env [Demo.ok Demo.with_data]) "tok"
                   (JStr "m1") [Demo.named_part; JObj []] 0 Demo.fresh))).
  vm_compute. reflexivity.
Defined.

Lemma plain_parts_witness :
  process_parts (Demo.env []) "tok" (JStr "m1")
    [JObj [("mimeType", JStr "text/plain")];
     JObj [("body", JObj [("size", JInt 0)])]] 7 Demo.fresh
  = (Ok 7, Demo.fresh).
Proof.
  apply plain_parts_are_ignored.
  apply List.Forall_cons; [|apply List.Forall_cons; [|apply List.Forall_nil]].
  - eexists. split; [reflexivity|]. now left.
  - eexists. split; [reflexivity|]. right. eexists. now split.
Defined.

Lemma messages_without_id_witness :
  process_messages (Demo.env []) "tok"
    [JNull; JObj [("threadId", JStr "t1")]; JObj [("id", JStr "")]] 0 Demo.fresh
  = (Ok 0, Demo.fresh).
Proof.
  apply messages_without_id_are_skipped.
  apply List.Forall_cons;
    [|apply List.Forall_cons;
      [|apply List.Forall_cons; [|apply List.Forall_nil]]].
  - now left.
  - right. eexists. now split.
  - right. eexists. now split.
Defined.

Lemma message_without_payload_witness :
  let E := Demo.env [Demo.ok (JObj [("id", JStr "m1")])] in
  process_message E "tok" (Demo.message "m1") 0 Demo.fresh
  = (Ok 0,
     log_request (mk_request (messages_url +:+ "/m1") "Bearer tok") Demo.fresh).
Proof.
  exact (message_without_payload
           (Demo.env [Demo.ok (JObj [("id", JStr "m1")])]) "tok"
           [("id", JStr "m1")] [("id", JStr "m1")] (JStr "m1")
           (Demo.ok (JObj [("id", JStr "m1")])) 0 Demo.fresh
           eq_refl eq_refl eq_refl eq_refl eq_refl).
Defined.

(** The bytes of [with_data] arrive for a part of message m1. *)
Lemma arrives_on_demo (E : externals) (fields : list (string * json))
    (filename : json) :
  server E = Demo.scripted [Demo.ok Demo.with_data] ->
  urlsafe_b64decode E = Demo.b64 ->
  lookup_field "body" fields = Some (JObj [("attachmentId", JStr "att1")]) ->
  filename = default (JStr "untitled.txt") (lookup_field "filename" fields) ->
  attachment_arrives E "tok" (JStr "m1") (JObj fields) Demo.fresh
    (JStr "att1") filename Demo.hi.
Proof.
  intros Hs Hb Hbody Hname.
  exists fields, [("attachmentId", JStr "att1")], (Demo.ok Demo.with_data),
    [("size", JInt 2); ("data", JStr "SGk=")], (JStr "SGk=").
  rewrite Hs, Hb. now repeat split.
Qed.

Lemma non_string_filename_witness :
  let E := Demo.env [Demo.ok Demo.with_data] in
  fst (process_part E "tok" (JStr "m1") Sample.null_named_part 0 Demo.fresh)
  = Raise (mk_exn AttributeError "NoneType")
  /\ files (snd (process_part E "tok" (JStr "m1") Sample.null_named_part 0
                   Demo.fresh)) = ∅.
Proof.
  intros E.
  destruct (non_string_filename_raises E "tok" (JStr "m1")
              Sample.null_named_part (JStr "att1") JNull Demo.hi 0 Demo.fresh)
    as (H1 & H2 & _).
  - now apply arrives_on_demo.
  - discriminate.
  - split; [exact H1 | exact H2].
Defined.

Lemma extraction_failure_witness :
  let E := Sample.broken [Demo.ok Demo.with_data] in
  fst (process_part E "tok" (JStr "m1") Sample.pdf_part 0 Demo.fresh)
  = Raise Sample.bad_page
  /\ files (snd (process_part E "tok" (JStr "m1") Sample.pdf_part 0 Demo.fresh))
       !! "attachments/bill.PDF" = Some Demo.hi.
Proof.
  intros E.
  apply (extraction_failure_keeps_file E "tok" (JStr "m1") Sample.pdf_part
           (JStr "att1") "bill.PDF" Demo.hi Sample.bad_page 0 Demo.fresh).
  - now apply arrives_on_demo.
  - vm_compute. reflexivity.
  - reflexivity.
Defined.

Lemma attachment_saved_witness :
  let E := Demo.env [Demo.ok Demo.with_data] in
  let r := process_part E "tok" (JStr "m1") Demo.named_part 4 Demo.fresh in
  fst r = Ok 5
  /\ files (snd r) = {["attachments/..notes.txt" := Demo.hi]}
  /\ stdout (snd r)
     = ["Saved attachment: attachments/..notes.txt" +:+ Str.nl;
        "Extracted text from ../notes.txt:" +:+ Str.nl;
        "Unsupported or no text extraction for this file type." +:+ Str.nl].
Proof.
  intros E.
  apply (attachment_is_saved_and_counted E "tok" (JStr "m1") Demo.named_part
           (JStr "att1") "../notes.txt"
           "Unsupported or no text extraction for this file type."
           Demo.hi 4 Demo.fresh).
  - now apply arrives_on_demo.
  - vm_compute. reflexivity.
  - reflexivity.
Defined.

Lemma empty_mailbox_witness :
  let E := Demo.env [Demo.ok (JObj []); Demo.ok (JObj [])] in
  fetch_and_save_attachments E 1 "tok" Demo.fresh
  = (Ok tt,
     mk_world [userinfo_request "tok"; search_request E "tok" JNull] ∅ ∅
       ["Total messages found: 0" +:+ Str.nl;
        "Total attachments processed: 0" +:+ Str.nl]
       []).
Proof.
  exact (empty_mailbox_run (Demo.env [Demo.ok (JObj []); Demo.ok (JObj [])])
           0 "tok" Demo.fresh (Demo.ok (JObj [])) (Demo.ok (JObj [])) []
           eq_refl eq_refl eq_refl eq_refl eq_refl eq_refl).
Defined.

Lemma slash_free_name_witness :
  Str.replace "a.pdf" "/" "" = "a.pdf"
  /\ files (snd (save_attachment_locally (Demo.env []) (JStr "a.pdf") Demo.hi
                   "attachments" Demo.fresh))
       !! "attachments/a.pdf" = Some Demo.hi.
Proof.
  destruct (slash_free_name_is_kept (Demo.env []) "a.pdf" Demo.hi
              "attachments" Demo.fresh eq_refl) as [H1 H2].
  split; [exact H1|]. apply H2. vm_compute. reflexivity.
Defined.

Lemma persister_directory_witness :
  is_dir Demo.fresh "attachments" = false
  /\ is_dir (snd (save_attachment_locally (Demo.env []) (JStr "a.pdf") Demo.hi
                    "attachments" Demo.fresh)) "attachments" = true.
Proof.
  split; [reflexivity|].
  apply persister_makes_directory; [discriminate|].
  vm_compute. reflexivity.
Defined.

Lemma nul_in_name_witness :
  Str.mem Path.nul Sample.nul_name = true
  /\ exists e,
       fst (save_attachment_locally (Demo.env []) (JStr Sample.nul_name)
              Demo.hi "attachments" Demo.fresh) = Raise e
       /\ exn_cls e = ValueError
       /\ files (snd (save_attachment_locally (Demo.env [])
                        (JStr Sample.nul_name) Demo.hi "attachments"
                        Demo.fresh)) = files Demo.fresh.
Proof.
  split; [reflexivity|].
  apply (nul_in_name_raises (Demo.env []) Sample.nul_name Demo.hi Demo.fresh).
  reflexivity.
Defined.

Lemma long_name_witness :
  Path.bytes_len Sample.long_name = 256
  /\ exists e,
       fst (save_attachment_locally (Demo.env []) (JStr Sample.long_name)
              Demo.hi "attachments" Demo.fresh) = Raise e
       /\ exn_cls e = OSError
       /\ files (snd (save_attachment_locally (Demo.env [])
                        (JStr Sample.long_name) Demo.hi "attachments"
                        Demo.fresh)) = files Demo.fresh.
Proof.
  split; [reflexivity|].
  apply (long_name_raises (Demo.env []) Sample.long_name Demo.hi Demo.fresh).
  - reflexivity.
  - vm_compute. lia.
  - reflexivity.
Defined.

Lemma endless_witness :
  fst (search_loop Sample.endless 50 "tok" JNull [] Demo.fresh) = Unfinished
  /\ length (sent (snd (search_loop Sample.endless 50 "tok" JNull []
                          Demo.fresh))) = 0 + 50.
Proof.
  apply endless_pages_never_leave. intros history rq.
  exists (Demo.ok (JObj [("nextPageToken", JStr "")])),
    (JObj [("nextPageToken", JStr "")]).
  repeat split. eexists. split; [reflexivity|]. now left.
Defined.

Lemma empty_data_witness :
  let E := Demo.env [Demo.ok (JObj [("data", JStr "")])] in
  process_parts E "tok" (JStr "m2") [Demo.unnamed_part] 0 Demo.fresh
  = (Ok 0,
     log_request (attachment_request E "tok" (JStr "m2") (JStr "att2"))
       Demo.fresh).
Proof.
  exact (part_with_empty_data_is_skipped
           (Demo.env [Demo.ok (JObj [("data", JStr "")])]) "tok" (JStr "m2")
           (JStr "att2") (JStr "")
           [("body", JObj [("attachmentId", JStr "att2")])]
           [("attachmentId", JStr "att2")]
           [("data", JStr "")]
           [] 0 (Demo.ok (JObj [("data", JStr "")])) Demo.fresh
           eq_refl eq_refl eq_refl eq_refl eq_refl eq_refl).
Defined.
